(** * AI-SRE dashboard: the sample target, the dashboard's SLA card and the
    aggregation core (incident lifecycle, health classification, SLA figures).

    The instrumented sample application ([apps/sample-node-app/server.js]) and
    the dashboard component [SLAMetrics.js] are embedded from their source.
    The aggregation backend ([backend/api/main.py]) is not among the source
    files; its components are modelled from the specification and every such
    definition says so. *)

From Stdlib Require Import QArith Qround Ascii DecimalString.
From stdpp Require Import gmap strings list fin_maps.

Local Open Scope string_scope.

(** ** JavaScript numbers, as far as the two programs use them *)

Module JS.

(** A Number is a finite value or one of the three results a division by
    zero can give. Finite values are kept exact: the counters are integers
    far below 2^53, and the only non-integer values are quotients of two of
    them. *)
Inductive number :=
| Num (q : Q)
| NaN
| PosInfinity
| NegInfinity.

Definition of_N (n : N) : number := Num (inject_Z (Z.of_N n)).
Definition of_Z (z : Z) : number := Num (inject_Z z).

(** The [/] operator on two finite operands. *)
Definition div (a b : Q) : number :=
  if Qeq_bool b 0 then
    match (a ?= 0)%Q with
    | Eq => NaN
    | Gt => PosInfinity
    | Lt => NegInfinity
    end
  else Num (a / b).

Definition isFinite (n : number) : bool :=
  match n with Num _ => true | _ => false end.

(** [a < b] on exact values. *)
Definition ltb (a b : Q) : bool := negb (Qle_bool b a).

(** [a >= b] on exact values. *)
Definition geb (a b : Q) : bool := Qle_bool b a.

(** [Array.prototype.join] on an array of strings. *)
Fixpoint join (sep : string) (parts : list string) : string :=
  match parts with
  | [] => ""
  | [p] => p
  | p :: rest => p ++ sep ++ join sep rest
  end.

Definition isLF (a : ascii) : bool := Ascii.eqb a (Ascii.ascii_of_nat 10).

Definition LF : string := String (Ascii.ascii_of_nat 10) EmptyString.

(** A string with no line feed in it. *)
Fixpoint oneLine (s : string) : bool :=
  match s with
  | EmptyString => true
  | String a rest => negb (isLF a) && oneLine rest
  end.

(** [text.split('\n')]: the pieces between line feeds, at least one. *)
Fixpoint splitLines (text : string) : list string :=
  match text with
  | EmptyString => [EmptyString]
  | String a rest =>
      if isLF a then EmptyString :: splitLines rest
      else match splitLines rest with
           | [] => [String a EmptyString]
           | line :: lines => String a line :: lines
           end
  end.

(** Number-to-text on integer values (decimal digits), enough to run the
    handlers on worked examples; a value with a fraction is cut to its
    integer part here, which the real conversion does not do. *)
Definition integerToString (n : number) : string :=
  match n with
  | Num q => NilZero.string_of_int (Z.to_int (Qfloor q))
  | NaN => "NaN"
  | PosInfinity => "Infinity"
  | NegInfinity => "-Infinity"
  end.

Lemma oneLine_app (a b : string) : oneLine (a ++ b) = oneLine a && oneLine b.
Proof.
  induction a as [|c a IH]; simpl; [reflexivity|].
  rewrite IH, andb_assoc. reflexivity.
Qed.

Lemma splitLines_single (l : string) : oneLine l = true -> splitLines l = [l].
Proof.
  induction l as [|c l IH]; simpl; [reflexivity|].
  intros H. apply andb_prop in H. destruct H as [Hc Hl].
  apply negb_true_iff in Hc. rewrite Hc, (IH Hl). reflexivity.
Qed.

Lemma splitLines_line (l rest : string) :
  oneLine l = true -> splitLines (l ++ LF ++ rest) = l :: splitLines rest.
Proof.
  induction l as [|c l IH]; simpl; [reflexivity|].
  intros H. apply andb_prop in H. destruct H as [Hc Hl].
  apply negb_true_iff in Hc. rewrite Hc, (IH Hl). reflexivity.
Qed.

(** Splitting what [join] glued gives the parts back, when no part holds a
    line feed. *)
Lemma splitLines_join (parts : list string) :
  parts <> [] ->
  Forall (fun l => oneLine l = true) parts ->
  splitLines (join LF parts) = parts.
Proof.
  intros Hne Hall. induction Hall as [|l rest Hl Hrest IH]; [congruence|].
  destruct rest as [|l2 rest].
  - simpl. apply splitLines_single, Hl.
  - change (join LF (l :: l2 :: rest)) with (l ++ LF ++ join LF (l2 :: rest)).
    rewrite (splitLines_line _ _ Hl), IH; [reflexivity | congruence].
Qed.

Lemma digits_oneLine (d : Decimal.uint) : oneLine (NilEmpty.string_of_uint d) = true.
Proof. induction d; simpl; auto. Qed.

Lemma integerToString_oneLine (n : number) : oneLine (integerToString n) = true.
Proof.
  destruct n as [q| | |]; try reflexivity. unfold integerToString.
  destruct (Z.to_int (Qfloor q)) as [d|d]; simpl.
  - destruct d; try reflexivity; apply (digits_oneLine (_ d)).
  - destruct d; try reflexivity; apply (digits_oneLine (_ d)).
Qed.

End JS.

(** ** The sample application: [server.js] *)

Module SampleApp.

(** The three module-level [let] counters. *)
Record counters := Counters {
  requestCount : N;
  errorCount : N;
  responseTimeSum : Z
}.

(** [let requestCount = 0; let errorCount = 0; let responseTimeSum = 0;] *)
Definition initial : counters := Counters 0 0 0.

#[local] Set Warnings "-register-all".

(** What a handler sends back. *)
Inductive json :=
| JString (s : string)
| JNumber (n : JS.number)
| JArray (items : list json)
| JObject (fields : list (string * json)).

Inductive payload :=
| JsonBody (j : json)
| TextBody (contentType : string) (text : string).

Record response := Response {
  statusCode : N;
  body : payload
}.

(** [res.json(j)] and [res.status(c).json(j)]. *)
Definition res_json (j : json) : response := Response 200 (JsonBody j).
Definition res_status_json (c : N) (j : json) : response := Response c (JsonBody j).

(** Handlers run to completion between two turns of the event loop, so a
    handler is a function of the counters: a state monad over [counters]. *)
Definition handler (A : Type) : Type := counters -> A * counters.

Definition ret {A} (a : A) : handler A := fun c => (a, c).
Definition bind {A B} (m : handler A) (k : A -> handler B) : handler B :=
  fun c => let (a, c') := m c in k a c'.

Notation "x <- m ;; k" := (bind m (fun x => k))
  (at level 20, m at level 99, k at level 200, only parsing).
Notation "m ;;; k" := (bind m (fun _ => k))
  (at level 20, k at level 200, only parsing).

Definition get : handler counters := fun c => (c, c).

(** [requestCount++] *)
Definition incr_requestCount : handler unit :=
  fun c => (tt, Counters (requestCount c + 1) (errorCount c) (responseTimeSum c)).

(** [errorCount++] *)
Definition incr_errorCount : handler unit :=
  fun c => (tt, Counters (requestCount c) (errorCount c + 1) (responseTimeSum c)).

(** [responseTimeSum += responseTime] *)
Definition add_responseTimeSum (responseTime : Z) : handler unit :=
  fun c => (tt, Counters (requestCount c) (errorCount c) (responseTimeSum c + responseTime)).

(** [responseTimeSum / requestCount] *)
Definition average (c : counters) : JS.number :=
  JS.div (inject_Z (responseTimeSum c)) (inject_Z (Z.of_N (requestCount c))).

(** [app.get('/health', ...)]. [random] is the value of [Math.random()],
    [startTime] and [now] the two readings of [Date.now()], [timestamp] the
    text of [new Date().toISOString()]. *)
Definition getHealth (random : Q) (startTime now : Z) (timestamp : string)
  : handler response :=
  if JS.ltb random (1 # 10) then
    incr_errorCount ;;;
    ret (res_status_json 500
           (JObject [("status", JString "unhealthy");
                     ("error", JString "Simulated failure")]))
  else
    incr_requestCount ;;;
    let responseTime := (now - startTime)%Z in
    add_responseTimeSum responseTime ;;;
    c <- get ;;
    ret (res_json
           (JObject [("status", JString "healthy");
                     ("timestamp", JString timestamp);
                     ("metrics",
                       JObject [("requestCount", JNumber (JS.of_N (requestCount c)));
                                ("errorCount", JNumber (JS.of_N (errorCount c)));
                                ("avgResponseTime", JNumber (average c))])])).

Definition user (i : N) (name email : string) : json :=
  JObject [("id", JNumber (JS.of_N i)); ("name", JString name); ("email", JString email)].

Definition order (i userId : N) (amount : Q) (status : string) : json :=
  JObject [("id", JNumber (JS.of_N i)); ("userId", JNumber (JS.of_N userId));
           ("amount", JNumber (JS.Num amount)); ("status", JString status)].

(** [app.get('/api/users', ...)]. The counters are touched only after the
    awaited timer, in one synchronous stretch; [startTime] was read before
    the wait and [now] after it. Nothing inside the [try] block throws, so
    its [catch] arm is not entered. *)
Definition getApiUsers (startTime now : Z) : handler response :=
  incr_requestCount ;;;
  let responseTime := (now - startTime)%Z in
  add_responseTimeSum responseTime ;;;
  ret (res_json
         (JObject [("users", JArray [user 1 "John Doe" "john@example.com";
                                     user 2 "Jane Smith" "jane@example.com"]);
                   ("responseTime", JNumber (JS.of_Z responseTime))])).

(** [app.get('/api/orders', ...)]. [random] is the second [Math.random()],
    the one compared with 0.15; the [throw] lands in the [catch] arm. *)
Definition getApiOrders (random : Q) (startTime now : Z) : handler response :=
  if JS.ltb random (15 # 100) then
    incr_errorCount ;;;
    ret (res_status_json 503
           (JObject [("error", JString "Orders service temporarily unavailable")]))
  else
    incr_requestCount ;;;
    let responseTime := (now - startTime)%Z in
    add_responseTimeSum responseTime ;;;
    ret (res_json
           (JObject [("orders", JArray [order 1 1 (9999 # 100) "completed";
                                        order 2 2 (14999 # 100) "pending"]);
                     ("responseTime", JNumber (JS.of_Z responseTime))])).

(** [const delays = { low: 50, medium: 150, high: 300 }] and
    [delays[intensity] || delays.medium], for the own keys of [delays]. *)
Definition delays : list (string * N) := [("low", 50); ("medium", 150); ("high", 300)]%N.

Definition delayOf (intensity : string) : N :=
  match List.find (fun kv => String.eqb (fst kv) intensity) delays with
  | Some (_, d) => d
  | None => 150
  end.

(** [app.post('/api/load', ...)], for a request whose body is a JSON object:
    [intensity] is the body's field, ['medium'] when the field is absent.
    The timer callback is the handler's effect. *)
Definition postApiLoad (intensity : option string) : handler response :=
  let intensity := default "medium" intensity in
  let delay := delayOf intensity in
  incr_requestCount ;;;
  ret (res_json
         (JObject [("message",
                     JString ("Load test completed with " ++ intensity ++ " intensity"));
                   ("delay", JNumber (JS.of_N delay))])).

Section Metrics.

(** The text a template literal gives for a Number. *)
Variable numberToString : JS.number -> string.

(** The value printed after [http_response_time_avg]:
    [requestCount > 0 ? responseTimeSum / requestCount : 0]. *)
Definition responseTimeAvg (c : counters) : JS.number :=
  if (0 <? requestCount c)%N then average c else JS.Num 0.

(** The array [metrics] of [app.get('/metrics', ...)]; [uptime] is the
    value of [process.uptime()]. *)
Definition metricsLines (uptime : Q) (c : counters) : list string :=
  [ "# HELP http_requests_total Total number of HTTP requests";
    "# TYPE http_requests_total counter";
    "http_requests_total " ++ numberToString (JS.of_N (requestCount c));
    "";
    "# HELP http_errors_total Total number of HTTP errors";
    "# TYPE http_errors_total counter";
    "http_errors_total " ++ numberToString (JS.of_N (errorCount c));
    "";
    "# HELP http_response_time_avg Average HTTP response time";
    "# TYPE http_response_time_avg gauge";
    "http_response_time_avg " ++ numberToString (responseTimeAvg c);
    "";
    "# HELP app_uptime Application uptime in seconds";
    "# TYPE app_uptime gauge";
    "app_uptime " ++ numberToString (JS.of_Z (Qfloor uptime)) ].

(** [res.set('Content-Type', 'text/plain'); res.send(metrics.join('\n'))] *)
Definition getMetrics (uptime : Q) : handler response :=
  c <- get ;;
  ret (Response 200 (TextBody "text/plain" (JS.join JS.LF (metricsLines uptime c)))).

(** One request the server handles, with the values the handler reads from
    its environment. *)
Inductive request :=
| GET_health (random : Q) (startTime now : Z) (timestamp : string)
| GET_api_users (startTime now : Z)
| GET_api_orders (random : Q) (startTime now : Z)
| POST_api_load (intensity : option string)
| GET_metrics (uptime : Q).

Definition handle (r : request) : handler response :=
  match r with
  | GET_health random startTime now timestamp => getHealth random startTime now timestamp
  | GET_api_users startTime now => getApiUsers startTime now
  | GET_api_orders random startTime now => getApiOrders random startTime now
  | POST_api_load intensity => postApiLoad intensity
  | GET_metrics uptime => getMetrics uptime
  end.

(** The counters after a sequence of requests, in the order in which
    their handlers touch the counters. *)
Fixpoint serve (rs : list request) (c : counters) : counters :=
  match rs with
  | [] => c
  | r :: rest => serve rest (snd (handle r c))
  end.

End Metrics.

(** *** Reading the exposition text

    The collector's side of the contract: a line is blank, a [#] comment, or
    a sample [key value] whose key ends at the first space. *)

Fixpoint splitAtSpace (line : string) : option (string * string) :=
  match line with
  | EmptyString => None
  | String a rest =>
      if Ascii.eqb a " "%char then Some (EmptyString, rest)
      else match splitAtSpace rest with
           | Some (key, value) => Some (String a key, value)
           | None => None
           end
  end.

Definition sampleOf (line : string) : option (string * string) :=
  match line with
  | EmptyString => None
  | String a _ => if Ascii.eqb a "#"%char then None else splitAtSpace line
  end.

Definition samples (lines : list string) : list (string * string) :=
  omap sampleOf lines.

(** A request whose second clock reading is not before its first. *)
Definition clockForward (r : request) : Prop :=
  match r with
  | GET_health _ startTime now _ => (startTime <= now)%Z
  | GET_api_users startTime now => (startTime <= now)%Z
  | GET_api_orders _ startTime now => (startTime <= now)%Z
  | POST_api_load _ => True
  | GET_metrics _ => True
  end.

(** *** Properties of the sample application *)

Lemma ltb_true (a b : Q) : (a < b)%Q -> JS.ltb a b = true.
Proof.
  intros H. unfold JS.ltb.
  destruct (Qle_bool b a) eqn:E; [|reflexivity].
  apply Qle_bool_iff in E. exfalso. exact (Qlt_not_le _ _ H E).
Qed.

(** One case per handler, and one per branch of a handler that draws a
    random number. *)
Ltac handler_cases r :=
  destruct r; simpl; unfold getHealth, getApiOrders;
  repeat match goal with
         | |- context [JS.ltb ?a ?b] => destruct (JS.ltb a b)
         end;
  simpl.

Lemma handle_requestCount numberToString r c :
  (requestCount c <= requestCount (snd (handle numberToString r c)))%N.
Proof. handler_cases r; lia. Qed.

Lemma handle_errorCount numberToString r c :
  (errorCount c <= errorCount (snd (handle numberToString r c)))%N.
Proof. handler_cases r; lia. Qed.

Lemma handle_responseTimeSum numberToString r c :
  clockForward r ->
  (responseTimeSum c <= responseTimeSum (snd (handle numberToString r c)))%Z.
Proof. handler_cases r; intros Hclock; lia. Qed.

(** C6, as the code has it: over any sequence of handled requests
    [requestCount] and [errorCount] never decrease, and [responseTimeSum]
    never decreases when no request reads the clock going backwards. *)
Theorem counters_nondecreasing numberToString rs c :
  (requestCount c <= requestCount (serve numberToString rs c))%N /\
  (errorCount c <= errorCount (serve numberToString rs c))%N /\
  (Forall clockForward rs ->
   (responseTimeSum c <= responseTimeSum (serve numberToString rs c))%Z).
Proof.
  revert c. induction rs as [|r rs IH]; intros c; simpl.
  - repeat split; try lia.
  - destruct (IH (snd (handle numberToString r c))) as (Hreq & Herr & Hsum).
    pose proof (handle_requestCount numberToString r c).
    pose proof (handle_errorCount numberToString r c).
    repeat split; try lia.
    intros Hall. inversion Hall as [|? ? Hr Hrs]; subst.
    pose proof (handle_responseTimeSum numberToString r c Hr).
    specialize (Hsum Hrs). lia.
Qed.

Lemma counters_nondecreasing_witness :
  Forall clockForward
    [GET_health (1 # 2) 1000 1003 "2026-01-01T00:00:00.000Z"; GET_api_users 1003 1100] /\
  (responseTimeSum initial <=
   responseTimeSum
     (serve JS.integerToString
        [GET_health (1 # 2) 1000 1003 "2026-01-01T00:00:00.000Z"; GET_api_users 1003 1100]
        initial))%Z.
Proof.
  assert (Hclock : Forall clockForward
    [GET_health (1 # 2) 1000 1003 "2026-01-01T00:00:00.000Z"; GET_api_users 1003 1100]).
  { repeat constructor; simpl; lia. }
  split; [exact Hclock|].
  exact (proj2 (proj2 (counters_nondecreasing JS.integerToString _ initial)) Hclock).
Defined.

(** C6 as stated fails: [/api/users] read 1000 before its wait and 995 after
    it, and [responseTimeSum] went from 0 to -5. *)
Lemma responseTimeSum_decreases :
  (responseTimeSum (snd (handle JS.integerToString (GET_api_users 1000 995) initial))
   < responseTimeSum initial)%Z.
Proof. vm_compute. reflexivity. Qed.

Lemma metricsLines_oneLine numberToString uptime c :
  (forall n, JS.oneLine (numberToString n) = true) ->
  Forall (fun l => JS.oneLine l = true) (metricsLines numberToString uptime c).
Proof.
  intros Hnum. unfold metricsLines.
  repeat constructor; try reflexivity; rewrite JS.oneLine_app, Hnum; reflexivity.
Qed.

Lemma metrics_samples numberToString uptime c :
  samples (metricsLines numberToString uptime c) =
    [ ("http_requests_total", numberToString (JS.of_N (requestCount c)));
      ("http_errors_total", numberToString (JS.of_N (errorCount c)));
      ("http_response_time_avg", numberToString (responseTimeAvg c));
      ("app_uptime", numberToString (JS.of_Z (Qfloor uptime))) ].
Proof. unfold samples, metricsLines. simpl. reflexivity. Qed.

(** C7: [GET /metrics] changes no counter and answers 200, [text/plain], the
    lines of [metrics] joined by line feeds; read as exposition text the lines
    hold exactly four samples, in this order, each key with the text of its
    current value; and the lines are the lines of the text sent, as the text
    of a number holds no line feed. *)
Theorem metrics_exposition numberToString uptime c :
  handle numberToString (GET_metrics uptime) c =
    (Response 200
       (TextBody "text/plain" (JS.join JS.LF (metricsLines numberToString uptime c))),
     c) /\
  samples (metricsLines numberToString uptime c) =
    [ ("http_requests_total", numberToString (JS.of_N (requestCount c)));
      ("http_errors_total", numberToString (JS.of_N (errorCount c)));
      ("http_response_time_avg", numberToString (responseTimeAvg c));
      ("app_uptime", numberToString (JS.of_Z (Qfloor uptime))) ] /\
  ((forall n, JS.oneLine (numberToString n) = true) ->
   JS.splitLines (JS.join JS.LF (metricsLines numberToString uptime c)) =
     metricsLines numberToString uptime c).
Proof.
  split; [|split].
  - reflexivity.
  - apply metrics_samples.
  - intros Hnum. apply JS.splitLines_join.
    + unfold metricsLines. discriminate.
    + apply metricsLines_oneLine, Hnum.
Qed.

Lemma metrics_exposition_witness :
  samples
    (JS.splitLines
       (JS.join JS.LF (metricsLines JS.integerToString (725 # 10) (Counters 4 2 36)))) =
    [ ("http_requests_total", "4"); ("http_errors_total", "2");
      ("http_response_time_avg", "9"); ("app_uptime", "72") ].
Proof.
  rewrite (proj2 (proj2 (metrics_exposition JS.integerToString (725 # 10) (Counters 4 2 36)))
             JS.integerToString_oneLine).
  reflexivity.
Defined.

(** C9: the simulated failure of [/health] and the failure of [/api/orders]
    each answer with an error status, add one to [errorCount] and leave
    [requestCount] (and [responseTimeSum]) as they were; whenever one of the
    five handlers answers with a status other than 200 it has done just
    that; and some run of the
    server ends with more errors than requests, so that [errorCount /
    requestCount] is above 1, that is above 100%. *)
Theorem error_responses_skip_requestCount :
  (forall random startTime now timestamp c,
     (random < 1 # 10)%Q ->
     exists j,
       getHealth random startTime now timestamp c =
         (res_status_json 500 j,
          Counters (requestCount c) (errorCount c + 1) (responseTimeSum c))) /\
  (forall random startTime now c,
     (random < 15 # 100)%Q ->
     exists j,
       getApiOrders random startTime now c =
         (res_status_json 503 j,
          Counters (requestCount c) (errorCount c + 1) (responseTimeSum c))) /\
  (forall numberToString r c,
     statusCode (fst (handle numberToString r c)) <> 200%N ->
     errorCount (snd (handle numberToString r c)) = (errorCount c + 1)%N /\
     requestCount (snd (handle numberToString r c)) = requestCount c) /\
  (exists rs,
     let c := serve JS.integerToString rs initial in
     (0 < requestCount c)%N /\
     (requestCount c < errorCount c)%N /\
     (1 < inject_Z (Z.of_N (errorCount c)) / inject_Z (Z.of_N (requestCount c)))%Q).
Proof.
  split; [|split; [|split]]; cycle 2.
  - intros numberToString r c.
    handler_cases r; intros Hstatus; solve [split; reflexivity | congruence].
  - exists [GET_health 0 10 10 "a"; GET_api_orders (1 # 10) 10 250;
            GET_health (1 # 2) 300 301 "b"].
    vm_compute. repeat split.
  - intros random startTime now timestamp c Hlt.
    unfold getHealth. rewrite (ltb_true _ _ Hlt).
    eexists. reflexivity.
  - intros random startTime now c Hlt.
    unfold getApiOrders. rewrite (ltb_true _ _ Hlt).
    eexists. reflexivity.
Qed.

Lemma error_responses_skip_requestCount_witness :
  (0 < 1 # 10)%Q /\
  exists j,
    getHealth 0 10 10 "a" (Counters 4 1 37) = (res_status_json 500 j, Counters 4 2 37).
Proof.
  assert (Hlt : (0 < 1 # 10)%Q) by reflexivity.
  split; [exact Hlt|].
  exact (proj1 error_responses_skip_requestCount 0%Q 10%Z 10%Z "a" (Counters 4 1 37) Hlt).
Defined.

(** C10: the [GET /metrics] handler answers with the lines of [metrics]
    joined by line feeds, and the value it reports there for
    [http_response_time_avg] is 0 when [requestCount] is 0 and
    [responseTimeSum / requestCount] otherwise; the division is never one by
    zero, so the reported value is always finite. *)
Theorem metrics_average_guarded numberToString uptime c :
  (exists text,
     handle numberToString (GET_metrics uptime) c =
       (Response 200 (TextBody "text/plain" text), c) /\
     text = JS.join JS.LF (metricsLines numberToString uptime c) /\
     ((forall n, JS.oneLine (numberToString n) = true) ->
      In ("http_response_time_avg", numberToString (responseTimeAvg c))
         (samples (JS.splitLines text)))) /\
  In ("http_response_time_avg", numberToString (responseTimeAvg c))
     (samples (metricsLines numberToString uptime c)) /\
  (requestCount c = 0%N -> responseTimeAvg c = JS.Num 0) /\
  (requestCount c <> 0%N ->
   responseTimeAvg c =
     JS.Num (inject_Z (responseTimeSum c) / inject_Z (Z.of_N (requestCount c)))) /\
  JS.isFinite (responseTimeAvg c) = true.
Proof.
  assert (Hsample :
    In ("http_response_time_avg", numberToString (responseTimeAvg c))
       (samples (metricsLines numberToString uptime c))).
  { rewrite metrics_samples. simpl. tauto. }
  split; [|split; [exact Hsample|]].
  - exists (JS.join JS.LF (metricsLines numberToString uptime c)).
    split; [reflexivity|]. split; [reflexivity|].
    intros Hnum. rewrite JS.splitLines_join; [exact Hsample | | ].
    + unfold metricsLines. discriminate.
    + apply metricsLines_oneLine, Hnum.
  - assert (Hpos : requestCount c <> 0%N ->
        responseTimeAvg c =
          JS.Num (inject_Z (responseTimeSum c) / inject_Z (Z.of_N (requestCount c)))).
    { intros Hne. unfold responseTimeAvg, average, JS.div.
      destruct (N.ltb_spec 0 (requestCount c)) as [Hlt|Hle]; [|lia].
      destruct (Qeq_bool (inject_Z (Z.of_N (requestCount c))) 0) eqn:E; [|reflexivity].
      apply Qeq_bool_eq in E. unfold Qeq in E. simpl in E. lia. }
    assert (Hzero : requestCount c = 0%N -> responseTimeAvg c = JS.Num 0).
    { intros H0. unfold responseTimeAvg. rewrite H0. reflexivity. }
    repeat split; [exact Hzero | exact Hpos |].
    destruct (N.eq_dec (requestCount c) 0%N) as [H0|Hne].
    + rewrite (Hzero H0). reflexivity.
    + rewrite (Hpos Hne). reflexivity.
Qed.

Lemma metrics_average_guarded_witness :
  responseTimeAvg initial = JS.Num 0 /\
  responseTimeAvg (Counters 4 1 37) = JS.Num (inject_Z 37 / inject_Z 4) /\
  exists text,
    handle JS.integerToString (GET_metrics 0) (Counters 4 1 37) =
      (Response 200 (TextBody "text/plain" text), Counters 4 1 37) /\
    In ("http_response_time_avg", JS.integerToString (responseTimeAvg (Counters 4 1 37)))
       (samples (JS.splitLines text)).
Proof.
  split; [|split].
  - exact (proj1 (proj2 (proj2 (metrics_average_guarded JS.integerToString 0%Q initial)))
             eq_refl).
  - refine (proj1 (proj2 (proj2 (proj2
              (metrics_average_guarded JS.integerToString 0%Q (Counters 4 1 37))))) _).
    discriminate.
  - destruct (proj1 (metrics_average_guarded JS.integerToString 0%Q (Counters 4 1 37)))
      as (text & Hanswer & _ & Hin).
    exists text. split; [exact Hanswer|].
    exact (Hin JS.integerToString_oneLine).
Defined.

(** *** Runs of the server *)

(** The answers the server gives to a sequence of requests, in order. *)
Fixpoint answers (numberToString : JS.number -> string) (rs : list request)
    (c : counters) : list (request * response) :=
  match rs with
  | [] => []
  | r :: rest =>
      (r, fst (handle numberToString r c))
        :: answers numberToString rest (snd (handle numberToString r c))
  end.

(** A [GET /metrics] request. *)
Definition isScrape (r : request) : bool :=
  match r with
  | GET_metrics _ => true
  | _ => false
  end.

(** An answer with status 200 to a request other than [GET /metrics]. *)
Definition isServed (a : request * response) : bool :=
  negb (isScrape (fst a)) && N.eqb (statusCode (snd a)) 200.

(** An answer with a status other than 200. *)
Definition isFailure (a : request * response) : bool :=
  negb (N.eqb (statusCode (snd a)) 200).


Lemma ltb_false (a b : Q) : (b <= a)%Q -> JS.ltb a b = false.
Proof.
  intros H. unfold JS.ltb. apply Qle_bool_iff in H. rewrite H. reflexivity.
Qed.

Lemma average_guarded_agree c : requestCount c <> 0%N -> average c = responseTimeAvg c.
Proof.
  intros Hne. unfold responseTimeAvg.
  destruct (N.ltb_spec 0 (requestCount c)); [reflexivity | lia].
Qed.

(** X1: a healthy [/health] answer reports the counters as they are after the
    request was counted; its [avgResponseTime], divided without a guard, is
    the finite value that [/metrics] would print right after it, because
    [requestCount++] comes before the division. *)
Theorem health_average_is_metrics_average random startTime now timestamp c :
  (1 # 10 <= random)%Q ->
  let c' := Counters (requestCount c + 1) (errorCount c)
              (responseTimeSum c + (now - startTime)) in
  getHealth random startTime now timestamp c =
    (res_json
       (JObject [("status", JString "healthy");
                 ("timestamp", JString timestamp);
                 ("metrics",
                   JObject [("requestCount", JNumber (JS.of_N (requestCount c')));
                            ("errorCount", JNumber (JS.of_N (errorCount c')));
                            ("avgResponseTime", JNumber (responseTimeAvg c'))])]),
     c') /\
  JS.isFinite (responseTimeAvg c') = true.
Proof.
  intros Hrandom c'. unfold getHealth. rewrite (ltb_false _ _ Hrandom).
  assert (Hne : requestCount c' <> 0%N) by (simpl; lia).
  split.
  - cbv [bind incr_requestCount add_responseTimeSum get ret]. simpl.
    fold c'. rewrite (average_guarded_agree c' Hne). reflexivity.
  - rewrite <- (average_guarded_agree c' Hne). unfold average, JS.div.
    destruct (Qeq_bool (inject_Z (Z.of_N (requestCount c'))) 0) eqn:E; [|reflexivity].
    apply Qeq_bool_eq in E. unfold Qeq in E. simpl in E. lia.
Qed.

Lemma health_average_is_metrics_average_witness :
  (1 # 10 <= 1 # 2)%Q /\
  JS.isFinite (responseTimeAvg (Counters (0 + 1) 0 (0 + (1003 - 1000)))) = true.
Proof.
  assert (Hrandom : (1 # 10 <= 1 # 2)%Q) by (vm_compute; discriminate).
  split; [exact Hrandom|].
  exact (proj2 (health_average_is_metrics_average (1 # 2) 1000 1003 "t" initial Hrandom)).
Defined.

Lemma handle_counts numberToString r c :
  let a := (r, fst (handle numberToString r c)) in
  let c' := snd (handle numberToString r c) in
  requestCount c' = (requestCount c + (if isServed a then 1 else 0))%N /\
  errorCount c' = (errorCount c + (if isFailure a then 1 else 0))%N.
Proof. handler_cases r; split; lia. Qed.

(** X2: over any run, [requestCount] grows by the number of 200 answers to
    requests other than [/metrics], and [errorCount] by the number of answers
    with another status: the two counters partition the handled requests, an
    error is not also counted as a request. *)
Theorem counters_count_answers numberToString rs c :
  requestCount (serve numberToString rs c) =
    (requestCount c + N.of_nat (length (List.filter isServed (answers numberToString rs c))))%N /\
  errorCount (serve numberToString rs c) =
    (errorCount c + N.of_nat (length (List.filter isFailure (answers numberToString rs c))))%N /\
  (requestCount (serve numberToString rs c) + errorCount (serve numberToString rs c) =
     requestCount c + errorCount c
       + N.of_nat (length (List.filter (fun r => negb (isScrape r)) rs)))%N.
Proof.
  revert c. induction rs as [|r rs IH]; intros c.
  - simpl. repeat split; lia.
  - cbn [serve answers List.filter].
    destruct (IH (snd (handle numberToString r c))) as (Hreq & Herr & Hboth).
    destruct (handle_counts numberToString r c) as [Hreq1 Herr1].
    cbv zeta in Hreq1, Herr1.
    set (a := (r, fst (handle numberToString r c))) in *.
    assert (Hone : ((if isServed a then 1 else 0) + (if isFailure a then 1 else 0)
                    = if negb (isScrape r) then 1 else 0)%N).
    { subst a. clear. handler_cases r; reflexivity. }
    destruct (isServed a), (isFailure a), (negb (isScrape r)); cbn [length]; lia.
Qed.

(** X3: [GET /metrics] only reads: dropping every scrape from a run leaves the
    final counters as they are, so scraping never disturbs what is measured. *)
Theorem scrapes_are_transparent numberToString rs c :
  serve numberToString (List.filter (fun r => negb (isScrape r)) rs) c =
    serve numberToString rs c.
Proof.
  revert c. induction rs as [|r rs IH]; intros c; [reflexivity|].
  destruct r; simpl; apply IH.
Qed.





End SampleApp.

(** ** The dashboard's SLA card: [SLAMetrics.js] *)

Module Dashboard.

(** The [/sla] response the component is given as [data]. *)
Record SLAReport := {
  availability_percentage : Q;
  uptime_percentage : Q;
  downtime_minutes : Q;
  sla_target : Q;
  mttr_minutes : Q;
  incident_count : N;
  last_updated : string
}.

Definition getAvailabilityColor (percentage : Q) : string :=
  if JS.geb percentage (999 # 10) then "text-green-400"
  else if JS.geb percentage 99 then "text-yellow-400"
  else "text-red-400".

Definition getAvailabilityStatus (percentage : Q) : string :=
  if JS.geb percentage (999 # 10) then "Excellent"
  else if JS.geb percentage 99 then "Good"
  else if JS.geb percentage 95 then "Fair"
  else "Poor".

(** What the card shows, number formatting ([toFixed]) and markup aside. *)
Inductive card :=
| NoData
| Card (availability : Q) (availabilityColor availabilityStatus : string)
       (slaTarget mttr downtime : Q)
       (incidentWarning : bool) (incidentCount : N)
       (uptime : Q) (uptimeColor : string)
       (complianceClass complianceLabel : string)
       (lastUpdated : string).

(** The component; [None] is a [data] that is null or undefined. *)
Definition SLAMetrics (data : option SLAReport) : card :=
  match data with
  | None => NoData
  | Some data =>
      Card (availability_percentage data)
           (getAvailabilityColor (availability_percentage data))
           (getAvailabilityStatus (availability_percentage data))
           (sla_target data) (mttr_minutes data) (downtime_minutes data)
           (0 <? incident_count data)%N (incident_count data)
           (uptime_percentage data)
           (getAvailabilityColor (uptime_percentage data))
           (if JS.geb (availability_percentage data) (sla_target data)
            then "bg-green-400/20 text-green-400"
            else "bg-red-400/20 text-red-400")
           (if JS.geb (availability_percentage data) (sla_target data)
            then "COMPLIANT"
            else "NON-COMPLIANT")
           (last_updated data)
  end.

(** The compliance label of a card. *)
Definition complianceLabelOf (c : card) : option string :=
  match c with
  | NoData => None
  | Card _ _ _ _ _ _ _ _ _ _ _ label _ => Some label
  end.

(** C8: for every SLA report the card's label is COMPLIANT exactly when
    [availability_percentage >= sla_target], and NON-COMPLIANT otherwise. *)
Theorem compliance_flag (data : SLAReport) :
  (complianceLabelOf (SLAMetrics (Some data)) = Some "COMPLIANT" <->
   (sla_target data <= availability_percentage data)%Q) /\
  (complianceLabelOf (SLAMetrics (Some data)) = Some "NON-COMPLIANT" <->
   ~ (sla_target data <= availability_percentage data)%Q).
Proof.
  unfold SLAMetrics, complianceLabelOf, JS.geb.
  destruct (Qle_bool (sla_target data) (availability_percentage data)) eqn:E.
  - apply Qle_bool_iff in E. split; split; intros H; try reflexivity; try exact E.
    + discriminate H.
    + contradiction.
  - assert (Hn : ~ (sla_target data <= availability_percentage data)%Q).
    { intros Hle. apply Qle_bool_iff in Hle. congruence. }
    split; split; intros H; try reflexivity; try exact Hn.
    + discriminate H.
    + contradiction.
Qed.

Lemma geb_true (a b : Q) : JS.geb a b = true <-> (b <= a)%Q.
Proof. unfold JS.geb. apply Qle_bool_iff. Qed.

Lemma geb_false (a b : Q) : JS.geb a b = false <-> (a < b)%Q.
Proof.
  unfold JS.geb. split.
  - intros H. apply Qnot_le_lt. intros Hle. apply Qle_bool_iff in Hle. congruence.
  - intros H. destruct (Qle_bool b a) eqn:E; [|reflexivity].
    apply Qle_bool_iff in E. exfalso. exact (Qlt_not_le _ _ H E).
Qed.

(** X5: the colour and the word shown for a percentage agree: green goes with
    Excellent (99.9 and above), yellow with Good (99 up to 99.9), and red
    with both Fair (95 up to 99) and Poor (below 95), so the colour alone
    does not tell Fair from Poor. *)
Theorem availability_color_matches_status (percentage : Q) :
  (getAvailabilityColor percentage = "text-green-400" <->
   getAvailabilityStatus percentage = "Excellent") /\
  (getAvailabilityColor percentage = "text-yellow-400" <->
   getAvailabilityStatus percentage = "Good") /\
  (getAvailabilityColor percentage = "text-red-400" <->
   getAvailabilityStatus percentage = "Fair" \/ getAvailabilityStatus percentage = "Poor") /\
  (getAvailabilityStatus percentage = "Excellent" <-> (999 # 10 <= percentage)%Q) /\
  (getAvailabilityStatus percentage = "Poor" <-> (percentage < 95)%Q).
Proof.
  unfold getAvailabilityColor, getAvailabilityStatus.
  destruct (JS.geb percentage (999 # 10)) eqn:E1.
  { apply geb_true in E1.
    repeat split; intros H; try reflexivity; try discriminate H; try exact E1.
    - destruct H as [H|H]; discriminate H.
    - exfalso. apply (Qlt_not_le _ _ H).
      apply Qle_trans with (999 # 10); [discriminate | exact E1]. }
  apply geb_false in E1.
  destruct (JS.geb percentage 99) eqn:E2.
  { apply geb_true in E2.
    repeat split; intros H; try reflexivity; try discriminate H.
    - destruct H as [H|H]; discriminate H.
    - exfalso. exact (Qlt_not_le _ _ E1 H).
    - exfalso. apply (Qlt_not_le _ _ H).
      apply Qle_trans with 99%Q; [discriminate | exact E2]. }
  apply geb_false in E2.
  destruct (JS.geb percentage 95) eqn:E3.
  { apply geb_true in E3.
    repeat split; intros H; try reflexivity; try discriminate H.
    - left. reflexivity.
    - exfalso. exact (Qlt_not_le _ _ E1 H).
    - exfalso. exact (Qlt_not_le _ _ H E3). }
  apply geb_false in E3.
  repeat split; intros H; try reflexivity; try discriminate H.
  - right. reflexivity.
  - exfalso. exact (Qlt_not_le _ _ E1 H).
  - exact E3.
Qed.

(** X6: the colour thresholds are fixed at 99.9 and 99 whatever the report's
    [sla_target]: with a target of 99.9 the card is COMPLIANT exactly when
    the availability is shown in green, but with a lower target a report
    can be COMPLIANT and shown in yellow or red. *)
Theorem compliance_matches_green_at_default_target :
  (forall data : SLAReport,
     (sla_target data == 999 # 10)%Q ->
     (complianceLabelOf (SLAMetrics (Some data)) = Some "COMPLIANT" <->
      getAvailabilityColor (availability_percentage data) = "text-green-400")) /\
  (exists data : SLAReport,
     complianceLabelOf (SLAMetrics (Some data)) = Some "COMPLIANT" /\
     getAvailabilityColor (availability_percentage data) = "text-red-400").
Proof.
  split.
  - intros data Htarget. unfold SLAMetrics, complianceLabelOf, getAvailabilityColor.
    destruct (JS.geb (availability_percentage data) (sla_target data)) eqn:E1;
      destruct (JS.geb (availability_percentage data) (999 # 10)) eqn:E2.
    + split; reflexivity.
    + exfalso. apply geb_true in E1. apply geb_false in E2.
      rewrite Htarget in E1. exact (Qlt_not_le _ _ E2 E1).
    + exfalso. apply geb_false in E1. apply geb_true in E2.
      rewrite Htarget in E1. exact (Qlt_not_le _ _ E1 E2).
    + split; intros H; [discriminate H|].
      destruct (JS.geb (availability_percentage data) 99); discriminate H.
  - exists {| availability_percentage := 97; uptime_percentage := 97;
              downtime_minutes := 1296; sla_target := 95; mttr_minutes := 15;
              incident_count := 0; last_updated := "2026-01-01T00:00:00" |}.
    split; reflexivity.
Qed.

Lemma compliance_matches_green_at_default_target_witness :
  let data := {| availability_percentage := 9995 # 100; uptime_percentage := 9995 # 100;
                 downtime_minutes := 21; sla_target := 999 # 10; mttr_minutes := 15;
                 incident_count := 1; last_updated := "2026-01-01T00:00:00" |} in
  (sla_target data == 999 # 10)%Q /\
  (complianceLabelOf (SLAMetrics (Some data)) = Some "COMPLIANT" <->
   getAvailabilityColor (availability_percentage data) = "text-green-400").
Proof.
  cbv zeta. split; [reflexivity|].
  apply (proj1 compliance_matches_green_at_default_target). reflexivity.
Defined.

End Dashboard.

(** ** The aggregation backend

    [backend/api/main.py] is not among the source files. The four modules
    below follow the specification's sections 3 and 4. Times are
    milliseconds since the epoch; a duration in minutes is a duration in
    milliseconds divided by 60000. *)

(** Modelled from the spec: the backend's duration unit conversion
    (main.py is missing); minutes from milliseconds. *)
Definition minutesOfMs (ms : Z) : Q := inject_Z ms / 60000.

(** *** Telemetry Counter Store (section 4.1) *)

Module Telemetry.

(** Modelled from the spec: the backend's CounterSnapshot record (main.py is
    missing), section 3: cumulative counts, the producer's cumulative average
    and the sampling time. *)
Record CounterSnapshot := {
  requestCount : N;
  errorCount : N;
  responseTimeAvgMs : Q;
  timestamp : Z
}.

(** Modelled from the spec: the backend's counter store (main.py is missing):
    per target an append-only sequence of snapshots, oldest first. *)
Definition Store : Type := gmap string (list CounterSnapshot).

(** Modelled from the spec: the store's eviction (main.py is missing): the
    sequence is capped to the last [retention] samples, oldest dropped
    first. *)
Definition evict (retention : nat) (l : list CounterSnapshot) : list CounterSnapshot :=
  drop (length l - retention) l.

(** Modelled from the spec: the store's [record(targetId, snapshot)] (main.py
    is missing): append, then enforce the retention cap. *)
Definition record (retention : nat) (targetId : string) (snapshot : CounterSnapshot)
    (st : gmap string (list CounterSnapshot)) : gmap string (list CounterSnapshot) :=
  <[targetId := evict retention (default [] (st !! targetId) ++ [snapshot])]> st.

(** Modelled from the spec: the store's [latest(targetId)] (main.py is
    missing): the most recent snapshot, or no data. *)
Definition latest (targetId : string) (st : gmap string (list CounterSnapshot))
    : option CounterSnapshot :=
  st !! targetId ≫= last.

(** Modelled from the spec: the store's [window(targetId, n)] (main.py is
    missing): the last [n] snapshots in chronological order. *)
Definition window (targetId : string) (n : nat) (st : gmap string (list CounterSnapshot))
    : list CounterSnapshot :=
  let l := default [] (st !! targetId) in drop (length l - n) l.

(** Modelled from the spec: the derived rate of section 4.1 (main.py is
    missing): [errorRate = errorCount / max(requestCount, 1)]. *)
Definition errorRate (s : CounterSnapshot) : Q :=
  inject_Z (Z.of_N (errorCount s)) / inject_Z (Z.of_N (N.max (requestCount s) 1)).

(** Modelled from the spec: the derived [avgResponseTime] of section 4.1
    (main.py is missing): the snapshot's own reported average. *)
Definition avgResponseTime (s : CounterSnapshot) : Q := responseTimeAvgMs s.

End Telemetry.

(** *** Health Evaluator (section 4.2) *)

Module HealthEvaluator.

Import Telemetry.

(** Modelled from the spec: the backend's health states (main.py is missing),
    section 3. *)
Inductive HealthStatus := healthy | degraded | unhealthy | unknown.

(** Modelled from the spec: the backend's HealthRecord (main.py is missing),
    section 3. *)
Record HealthRecord := {
  status : HealthStatus;
  lastCheckedAt : Z
}.

(** Modelled from the spec: the evaluator's tunable thresholds (main.py is
    missing): the high and the low error rate and the latency bound. *)
Record Thresholds := {
  unhealthyErrorRate : Q;
  degradedErrorRate : Q;
  latencyMs : Q
}.

(** Modelled from the spec: the example thresholds of section 4.2 (main.py is
    missing): 10%, 1%, and a latency bound the spec leaves open, here 1000
    ms. *)
Definition exampleThresholds : Thresholds :=
  {| unhealthyErrorRate := 1 # 10; degradedErrorRate := 1 # 100; latencyMs := 1000 |}.

(** Modelled from the spec: the classification rule of section 4.2 (main.py
    is missing), its four cases in the order the spec lists them.
    [probeFailed] says that the most recent check failed outright. *)
Definition classify (th : Thresholds) (probeFailed : bool)
    (snapshot : option CounterSnapshot) : HealthStatus :=
  match snapshot with
  | None => unknown
  | Some s =>
      if probeFailed || JS.geb (errorRate s) (unhealthyErrorRate th) then unhealthy
      else if JS.geb (errorRate s) (degradedErrorRate th)
              || JS.ltb (latencyMs th) (avgResponseTime s) then degraded
      else healthy
  end.

(** Modelled from the spec: [evaluate(targetId)] of section 4.2 (main.py is
    missing): the record derived from the target's latest snapshot. *)
Definition evaluate (th : Thresholds) (targetId : string) (probeFailed : bool) (now : Z)
    (st : gmap string (list CounterSnapshot)) : HealthRecord :=
  {| status := classify th probeFailed (latest targetId st); lastCheckedAt := now |}.

(** C5: with no snapshot for the target the status is [unknown]; with one,
    an error rate at or above the unhealthy threshold gives [unhealthy]
    whatever the latency and the probe, so [degraded] is never the result
    when the error rate exceeds that threshold. *)
Theorem classification_severity_order th targetId probeFailed now
    (st : gmap string (list CounterSnapshot)) :
  (default [] (st !! targetId) = [] ->
   status (evaluate th targetId probeFailed now st) = unknown) /\
  (forall s, latest targetId st = Some s ->
     (unhealthyErrorRate th <= errorRate s)%Q ->
     status (evaluate th targetId probeFailed now st) = unhealthy) /\
  (forall s, latest targetId st = Some s ->
     (unhealthyErrorRate th < errorRate s)%Q ->
     status (evaluate th targetId probeFailed now st) <> degraded).
Proof.
  assert (Hhigh : forall s, latest targetId st = Some s ->
            (unhealthyErrorRate th <= errorRate s)%Q ->
            status (evaluate th targetId probeFailed now st) = unhealthy).
  { intros s Hs Hle. unfold evaluate, classify; simpl. rewrite Hs.
    apply Qle_bool_iff in Hle. unfold JS.geb. rewrite Hle.
    rewrite orb_true_r. reflexivity. }
  split; [|split].
  - intros Hnone. unfold evaluate, latest; simpl.
    destruct (st !! targetId) as [l|]; simpl in *; [subst l|]; reflexivity.
  - exact Hhigh.
  - intros s Hs Hlt. rewrite (Hhigh s Hs (Qlt_le_weak _ _ Hlt)). discriminate.
Qed.

Lemma classification_severity_order_witness :
  let snapshot :=
    {| requestCount := 80; errorCount := 20; responseTimeAvgMs := 12; timestamp := 5 |} in
  let st := record 100 "sample-app" snapshot ∅ in
  latest "sample-app" st = Some snapshot /\
  (unhealthyErrorRate exampleThresholds <= errorRate snapshot)%Q /\
  status (evaluate exampleThresholds "sample-app" false 6 st) = unhealthy.
Proof.
  assert (Hlatest :
    latest "sample-app"
      (record 100 "sample-app"
         {| requestCount := 80; errorCount := 20; responseTimeAvgMs := 12; timestamp := 5 |}
         ∅) =
    Some {| requestCount := 80; errorCount := 20; responseTimeAvgMs := 12; timestamp := 5 |}).
  { unfold latest, record. rewrite lookup_insert_eq. reflexivity. }
  assert (Hrate :
    (unhealthyErrorRate exampleThresholds <=
     errorRate {| requestCount := 80; errorCount := 20; responseTimeAvgMs := 12;
                  timestamp := 5 |})%Q).
  { vm_compute. discriminate. }
  split; [exact Hlatest|]. split; [exact Hrate|].
  exact (proj1 (proj2 (classification_severity_order exampleThresholds "sample-app" false 6%Z _))
           _ Hlatest Hrate).
Defined.

End HealthEvaluator.

(** *** Incident Manager (section 4.3) *)

Module IncidentManager.

(** Modelled from the spec: the backend's incident severities (main.py is
    missing), section 3. *)
Inductive Severity := low | medium | high.

(** Modelled from the spec: the backend's incident lifecycle states (main.py
    is missing), section 3. *)
Inductive IncidentStatus := open | resolved.

(** Modelled from the spec: the backend's Incident record (main.py is
    missing), section 3; [None] is a null field. *)
Record Incident := {
  id : N;
  title : string;
  description : string;
  severity : Severity;
  status : IncidentStatus;
  createdAt : Z;
  resolvedAt : option Z;
  aiAnalysis : option string;
  sourceTargetId : string
}.

(** Modelled from the spec: the error taxonomy of section 7 as far as the
    Incident Manager raises it (main.py is missing). *)
Inductive Error := NotFoundError | ValidationError.

(** Modelled from the spec: the outcome of a fallible command (main.py is
    missing): a value, or one of the errors of section 7. *)
Inductive result (A : Type) :=
| Ok (a : A)
| Err (e : Error).

Arguments Ok {A} a.
Arguments Err {A} e.

(** Modelled from the spec: the Incident Manager's state (main.py is
    missing): the incidents, most recent first, never deleted, and the next
    id of a monotonic id supply. *)
Record Manager := {
  incidents : list Incident;
  nextId : N
}.

(** Modelled from the spec: the Incident Manager at start-up (main.py is
    missing): no incident yet. *)
Definition empty : Manager := {| incidents := []; nextId := 1 |}.

(** Modelled from the spec: [create(title, description, severity,
    sourceTargetId)] of section 4.3 (main.py is missing): always succeeds,
    unique id, [createdAt = now], open, no analysis. *)
Definition create (title description : string) (severity : Severity)
    (sourceTargetId : string) (now : Z) (m : Manager) : Incident * Manager :=
  let i := {| id := nextId m; title := title; description := description;
              severity := severity; status := open; createdAt := now;
              resolvedAt := None; aiAnalysis := None;
              sourceTargetId := sourceTargetId |} in
  (i, {| incidents := i :: incidents m; nextId := nextId m + 1 |}).

(** Modelled from the spec: the dedup test of section 4.3 (main.py is
    missing): an incident that is open and was raised for this target. *)
Definition isOpenFor (targetId : string) (i : Incident) : bool :=
  match status i with
  | open => String.eqb (sourceTargetId i) targetId
  | resolved => false
  end.

(** Modelled from the spec: the open incident of a target, if any (main.py
    is missing). *)
Definition openIncidentFor (targetId : string) (m : Manager) : option Incident :=
  List.find (isOpenFor targetId) (incidents m).

(** Modelled from the spec: how many incidents are open for a target
    (main.py is missing); the quantity the dedup discipline bounds. *)
Definition openCount (targetId : string) (m : Manager) : nat :=
  length (List.filter (isOpenFor targetId) (incidents m)).

(** Modelled from the spec: the degradations of section 4.3 (main.py is
    missing): healthy or degraded to unhealthy, and healthy to degraded. *)
Definition isDegradation (fromStatus toStatus : HealthEvaluator.HealthStatus) : bool :=
  match fromStatus, toStatus with
  | HealthEvaluator.healthy, HealthEvaluator.unhealthy => true
  | HealthEvaluator.degraded, HealthEvaluator.unhealthy => true
  | HealthEvaluator.healthy, HealthEvaluator.degraded => true
  | _, _ => false
  end.

(** Modelled from the spec: lookup of an incident by id (main.py is
    missing). *)
Definition findIncident (incidentId : N) (m : Manager) : option Incident :=
  List.find (fun i => N.eqb (id i) incidentId) (incidents m).

(** Modelled from the spec: in-place mutation of the incident with a given
    id (main.py is missing); order and ids are kept. *)
Definition updateIncident (incidentId : N) (f : Incident -> Incident) (m : Manager)
    : Manager :=
  {| incidents := map (fun i => if N.eqb (id i) incidentId then f i else i) (incidents m);
     nextId := nextId m |}.

(** Modelled from the spec: mutation (a) of section 3 (main.py is missing):
    set [aiAnalysis]. *)
Definition withAnalysis (text : string) (i : Incident) : Incident :=
  {| id := id i; title := title i; description := description i;
     severity := severity i; status := status i; createdAt := createdAt i;
     resolvedAt := resolvedAt i; aiAnalysis := Some text;
     sourceTargetId := sourceTargetId i |}.

(** Modelled from the spec: mutation (b) of section 3 (main.py is missing):
    [status = resolved], [resolvedAt = now]. *)
Definition markResolved (now : Z) (i : Incident) : Incident :=
  {| id := id i; title := title i; description := description i;
     severity := severity i; status := resolved; createdAt := createdAt i;
     resolvedAt := Some now; aiAnalysis := aiAnalysis i;
     sourceTargetId := sourceTargetId i |}.

(** Modelled from the spec: [attachAnalysis(incidentId, text)] of section
    4.3 (main.py is missing): sets the analysis when it is null, does nothing
    when it is set; an unknown id is the NotFoundError of section 7. *)
Definition attachAnalysis (incidentId : N) (text : string) (m : Manager)
    : result Incident * Manager :=
  match findIncident incidentId m with
  | None => (Err NotFoundError, m)
  | Some i =>
      match aiAnalysis i with
      | Some _ => (Ok i, m)
      | None => (Ok (withAnalysis text i), updateIncident incidentId (withAnalysis text) m)
      end
  end.

(** Modelled from the spec: [resolve(incidentId)] of section 4.3 (main.py is
    missing): NotFoundError on an unknown id, nothing on a resolved incident,
    else the one-way transition. *)
Definition resolve (incidentId : N) (now : Z) (m : Manager) : result unit * Manager :=
  match findIncident incidentId m with
  | None => (Err NotFoundError, m)
  | Some i =>
      match status i with
      | resolved => (Ok tt, m)
      | open => (Ok tt, updateIncident incidentId (markResolved now) m)
      end
  end.

(** Modelled from the spec: [list()] of section 4.3 (main.py is missing):
    most recent first. *)
Definition list_incidents (m : Manager) : list Incident := incidents m.

(** Modelled from the spec: the batch a demo-generation command creates
    (main.py is missing): through [create], so without the dedup test. *)
Fixpoint createAll (batch : list (string * string * Severity * string)) (now : Z)
    (m : Manager) : list Incident * Manager :=
  match batch with
  | [] => ([], m)
  | (t, d, sev, target) :: rest =>
      let (i, m1) := create t d sev target now m in
      let (created, m2) := createAll rest now m1 in
      (i :: created, m2)
  end.

Section Policy.

(** Title, description and severity of an incident raised from a health
    transition, and the batch of the demo command: the specification leaves
    both to the implementer. *)
Variable describeTransition :
  string -> HealthEvaluator.HealthStatus -> HealthEvaluator.HealthStatus ->
  string * string * Severity.
Variable demoBatch : list (string * string * Severity * string).

(** Modelled from the spec: [createFromHealthTransition(targetId, fromStatus,
    toStatus)] of section 4.3 (main.py is missing): on a degradation, creates
    an incident unless one is open for the target. *)
Definition createFromHealthTransition (targetId : string)
    (fromStatus toStatus : HealthEvaluator.HealthStatus) (now : Z) (m : Manager)
    : option Incident * Manager :=
  if isDegradation fromStatus toStatus then
    match openIncidentFor targetId m with
    | Some _ => (None, m)
    | None =>
        let '(t, d, sev) := describeTransition targetId fromStatus toStatus in
        let (i, m') := create t d sev targetId now m in
        (Some i, m')
    end
  else (None, m).

(** Modelled from the spec: the demo-generation command of section 4.3
    (main.py is missing). *)
Definition generateDemoIncidents (now : Z) (m : Manager) : list Incident * Manager :=
  createAll demoBatch now m.

(** Modelled from the spec: the commands that reach the Incident Manager
    (main.py is missing), each with the time at which it runs. *)
Inductive command :=
| Create (title description : string) (severity : Severity) (sourceTargetId : string) (now : Z)
| CreateFromHealthTransition (targetId : string)
    (fromStatus toStatus : HealthEvaluator.HealthStatus) (now : Z)
| AttachAnalysis (incidentId : N) (text : string)
| Resolve (incidentId : N) (now : Z)
| GenerateDemoIncidents (now : Z).

(** Modelled from the spec: the state after one command (main.py is
    missing); a command that fails leaves the state as it was. *)
Definition exec (c : command) (m : Manager) : Manager :=
  match c with
  | Create t d sev target now => snd (create t d sev target now m)
  | CreateFromHealthTransition target fromStatus toStatus now =>
      snd (createFromHealthTransition target fromStatus toStatus now m)
  | AttachAnalysis incidentId text => snd (attachAnalysis incidentId text m)
  | Resolve incidentId now => snd (resolve incidentId now m)
  | GenerateDemoIncidents now => snd (generateDemoIncidents now m)
  end.

(** Modelled from the spec: the commands that go through the dedup test or
    create nothing (main.py is missing): all but [create] and the demo
    command. *)
Definition deduplicating (c : command) : Prop :=
  match c with
  | Create _ _ _ _ _ => False
  | GenerateDemoIncidents _ => False
  | _ => True
  end.

(** Modelled from the spec: the states the Incident Manager can be in
    (main.py is missing): from [empty], by commands that satisfy
    [allowed]. *)
Inductive reachableBy (allowed : command -> Prop) : Manager -> Prop :=
| reach_empty : reachableBy allowed empty
| reach_exec m c : reachableBy allowed m -> allowed c -> reachableBy allowed (exec c m).

(** Modelled from the spec: every state of the Incident Manager (main.py is
    missing). *)
Definition reachable : Manager -> Prop := reachableBy (fun _ => True).

(** Modelled from the spec: repeated [createFromHealthTransition] calls for
    one target (main.py is missing), each with its transition and its
    time. *)
Fixpoint repeatTransitions (targetId : string)
    (calls : list (HealthEvaluator.HealthStatus * HealthEvaluator.HealthStatus * Z))
    (m : Manager) : Manager :=
  match calls with
  | [] => m
  | (fromStatus, toStatus, now) :: rest =>
      repeatTransitions targetId rest
        (snd (createFromHealthTransition targetId fromStatus toStatus now m))
  end.

(** Modelled from the spec: the state after a sequence of commands (main.py
    is missing). *)
Fixpoint execAll (cs : list command) (m : Manager) : Manager :=
  match cs with
  | [] => m
  | c :: rest => execAll rest (exec c m)
  end.

End Policy.

(** Every stored id was handed out by the id supply. *)
Definition idsBelow (m : Manager) : Prop :=
  Forall (fun i => (id i < nextId m)%N) (incidents m).

(** The invariant of section 3: [resolvedAt] is set exactly on a resolved
    incident. *)
Definition consistent (i : Incident) : Prop :=
  resolvedAt i <> None <-> status i = resolved.

(** What may become of an incident: it keeps its id, a set analysis stays
    what it is, and a resolved incident stays resolved with its time. *)
Definition evolves (i i' : Incident) : Prop :=
  id i' = id i /\
  (forall a, aiAnalysis i = Some a -> aiAnalysis i' = Some a) /\
  (status i = resolved -> status i' = resolved /\ resolvedAt i' = resolvedAt i).

(** **** Lookup and update *)

Lemma find_id k m i : findIncident k m = Some i -> id i = k /\ In i (incidents m).
Proof.
  unfold findIncident. intros H. apply List.find_some in H.
  destruct H as [Hin Heq]. apply N.eqb_eq in Heq. split; assumption.
Qed.

Lemma find_update j k f m :
  (forall i, id (f i) = id i) ->
  findIncident j (updateIncident k f m) =
    (fun i => if N.eqb (id i) k then f i else i) <$> findIncident j m.
Proof.
  intros Hid. unfold findIncident, updateIncident; simpl.
  induction (incidents m) as [|a l IH]; simpl; [reflexivity|].
  assert (Hsame : id (if N.eqb (id a) k then f a else a) = id a).
  { destruct (N.eqb (id a) k); [apply Hid | reflexivity]. }
  rewrite Hsame. destruct (N.eqb (id a) j); [reflexivity | exact IH].
Qed.

Lemma find_update_other j k f m :
  (forall i, id (f i) = id i) -> j <> k ->
  findIncident j (updateIncident k f m) = findIncident j m.
Proof.
  intros Hid Hne. rewrite find_update by exact Hid.
  destruct (findIncident j m) as [i|] eqn:E; simpl; [|reflexivity].
  apply find_id in E. destruct E as [E _].
  destruct (N.eqb_spec (id i) k) as [Heq|_]; [congruence | reflexivity].
Qed.

Lemma find_fresh k i m :
  (k < nextId m)%N -> id i = nextId m ->
  findIncident k {| incidents := i :: incidents m; nextId := (nextId m + 1)%N |} =
    findIncident k m.
Proof.
  intros Hlt Hid. unfold findIncident; simpl. rewrite Hid.
  destruct (N.eqb_spec (nextId m) k) as [Heq|_]; [lia | reflexivity].
Qed.

Lemma evolves_refl i : evolves i i.
Proof. repeat split; auto. Qed.

Lemma evolves_trans i1 i2 i3 : evolves i1 i2 -> evolves i2 i3 -> evolves i1 i3.
Proof.
  intros (Hid1 & Han1 & Hres1) (Hid2 & Han2 & Hres2). repeat split.
  - congruence.
  - intros a Ha. apply Han2, Han1, Ha.
  - apply Hres2, Hres1. assumption.
  - destruct (Hres1 H) as [Hs Hr]. destruct (Hres2 Hs) as [_ Hr2]. congruence.
Qed.

(** **** The id supply *)

Lemma idsBelow_weaken l (n n' : N) :
  (n <= n')%N -> Forall (fun i => (id i < n)%N) l -> Forall (fun i => (id i < n')%N) l.
Proof.
  intros Hle H. eapply List.Forall_impl; [|exact H].
  intros i Hi. simpl in Hi. lia.
Qed.

Lemma create_idsBelow t d sev target now m :
  idsBelow m -> idsBelow (snd (create t d sev target now m)).
Proof.
  unfold idsBelow; simpl. intros H. constructor; simpl; [lia|].
  apply idsBelow_weaken with (n := nextId m); [lia | exact H].
Qed.

Lemma update_idsBelow k f m :
  (forall i, id (f i) = id i) -> idsBelow m -> idsBelow (updateIncident k f m).
Proof.
  intros Hid. unfold idsBelow, updateIncident; simpl.
  induction (incidents m) as [|a l IH]; intros H; simpl; [constructor|].
  inversion H as [|? ? Ha Hl]; subst. constructor; [|apply IH, Hl].
  destruct (N.eqb (id a) k); [rewrite Hid|]; exact Ha.
Qed.

Lemma createAll_spec batch now m :
  idsBelow m ->
  idsBelow (snd (createAll batch now m)) /\
  (nextId m <= nextId (snd (createAll batch now m)))%N /\
  (forall k, (k < nextId m)%N ->
     findIncident k (snd (createAll batch now m)) = findIncident k m) /\
  (Forall consistent (incidents m) ->
   Forall consistent (incidents (snd (createAll batch now m)))).
Proof.
  revert m. induction batch as [|[[[t d] sev] target] rest IH]; intros m Hm; simpl.
  - repeat split; auto; lia.
  - pose proof (create_idsBelow t d sev target now m Hm) as Hm1.
    specialize (IH _ Hm1). unfold create in *. simpl in *.
    destruct (createAll rest now _) as [created m2]. simpl in *.
    destruct IH as (Hbelow & Hnext & Hfind & Hcons).
    repeat split.
    + exact Hbelow.
    + lia.
    + intros k Hk. rewrite Hfind by lia.
      apply find_fresh; [exact Hk | reflexivity].
    + intros Hall. apply Hcons. constructor; [|exact Hall].
      unfold consistent; simpl. split; [congruence | discriminate].
Qed.

(** **** One command *)

Section Commands.

Variable describeTransition :
  string -> HealthEvaluator.HealthStatus -> HealthEvaluator.HealthStatus ->
  string * string * Severity.
Variable demoBatch : list (string * string * Severity * string).

Lemma transition_cases target fromStatus toStatus now m :
  snd (createFromHealthTransition describeTransition target fromStatus toStatus now m) = m \/
  (openIncidentFor target m = None /\
   isDegradation fromStatus toStatus = true /\
   exists t d sev,
     snd (createFromHealthTransition describeTransition target fromStatus toStatus now m) =
       snd (create t d sev target now m)).
Proof.
  unfold createFromHealthTransition.
  destruct (isDegradation fromStatus toStatus); [|left; reflexivity].
  destruct (openIncidentFor target m) eqn:E; [left; reflexivity|].
  right. destruct (describeTransition target fromStatus toStatus) as [[t d] sev].
  repeat split. exists t, d, sev. reflexivity.
Qed.

Lemma exec_idsBelow c m : idsBelow m -> idsBelow (exec describeTransition demoBatch c m).
Proof.
  intros Hm. destruct c; simpl.
  - apply create_idsBelow, Hm.
  - destruct (transition_cases targetId fromStatus toStatus now m)
      as [E | (_ & _ & t & d & sev & E)]; rewrite E;
      [exact Hm | apply create_idsBelow, Hm].
  - unfold attachAnalysis. destruct (findIncident incidentId m) as [i|]; [|exact Hm].
    destruct (aiAnalysis i); [exact Hm|]. simpl.
    apply update_idsBelow; [reflexivity | exact Hm].
  - unfold resolve. destruct (findIncident incidentId m) as [i|]; [|exact Hm].
    destruct (status i); [|exact Hm]. simpl.
    apply update_idsBelow; [reflexivity | exact Hm].
  - apply createAll_spec, Hm.
Qed.

Lemma update_consistent k f m :
  (forall i, consistent i -> consistent (f i)) ->
  Forall consistent (incidents m) -> Forall consistent (incidents (updateIncident k f m)).
Proof.
  intros Hf. unfold updateIncident; simpl.
  induction (incidents m) as [|a l IH]; intros H; simpl; [constructor|].
  inversion H as [|? ? Ha Hl]; subst. constructor; [|apply IH, Hl].
  destruct (N.eqb (id a) k); [apply Hf|]; exact Ha.
Qed.

Lemma exec_consistent c m :
  idsBelow m -> Forall consistent (incidents m) -> Forall consistent (incidents (exec describeTransition demoBatch c m)).
Proof.
  intros Hbelow Hm.
  assert (Hcreate : forall t d sev target now,
            Forall consistent (incidents (snd (create t d sev target now m)))).
  { intros. simpl. constructor; [|exact Hm].
    unfold consistent; simpl. split; [congruence | discriminate]. }
  destruct c; simpl.
  - apply Hcreate.
  - destruct (transition_cases targetId fromStatus toStatus now m)
      as [E | (_ & _ & t & d & sev & E)]; rewrite E; [exact Hm | apply Hcreate].
  - unfold attachAnalysis. destruct (findIncident incidentId m) as [i|]; [|exact Hm].
    destruct (aiAnalysis i); [exact Hm|]. simpl.
    apply update_consistent; [|exact Hm]. intros j Hj. exact Hj.
  - unfold resolve. destruct (findIncident incidentId m) as [i|]; [|exact Hm].
    destruct (status i); [|exact Hm]. simpl.
    apply update_consistent; [|exact Hm]. intros j _.
    unfold consistent; simpl. split; [reflexivity | discriminate].
  - apply createAll_spec; assumption.
Qed.

Lemma exec_evolves c m k i :
  idsBelow m -> findIncident k m = Some i ->
  exists i', findIncident k (exec describeTransition demoBatch c m) = Some i' /\ evolves i i'.
Proof.
  intros Hbelow Hfind.
  destruct (find_id _ _ _ Hfind) as [Hid Hin].
  assert (Hk : (k < nextId m)%N).
  { unfold idsBelow in Hbelow. rewrite List.Forall_forall in Hbelow.
    specialize (Hbelow i Hin). simpl in Hbelow. lia. }
  assert (Hcreate : forall t d sev target now,
            findIncident k (snd (create t d sev target now m)) = Some i).
  { intros. simpl. rewrite find_fresh; [exact Hfind | exact Hk | reflexivity]. }
  destruct c; simpl.
  - exists i. split; [apply Hcreate | apply evolves_refl].
  - exists i. split; [|apply evolves_refl].
    destruct (transition_cases targetId fromStatus toStatus now m)
      as [E | (_ & _ & t & d & sev & E)]; rewrite E; [exact Hfind | apply Hcreate].
  - unfold attachAnalysis.
    destruct (findIncident incidentId m) as [j|] eqn:Ej;
      [|exists i; split; [exact Hfind | apply evolves_refl]].
    destruct (aiAnalysis j) eqn:Ea;
      [exists i; split; [exact Hfind | apply evolves_refl]|].
    simpl. rewrite find_update by reflexivity. rewrite Hfind. simpl.
    eexists. split; [reflexivity|].
    destruct (N.eqb_spec (id i) incidentId) as [Heq|_]; [|apply evolves_refl].
    assert (j = i) by congruence. subst j.
    repeat split; simpl; auto. congruence.
  - unfold resolve.
    destruct (findIncident incidentId m) as [j|] eqn:Ej;
      [|exists i; split; [exact Hfind | apply evolves_refl]].
    destruct (status j) eqn:Es;
      [|exists i; split; [exact Hfind | apply evolves_refl]].
    simpl. rewrite find_update by reflexivity. rewrite Hfind. simpl.
    eexists. split; [reflexivity|].
    destruct (N.eqb_spec (id i) incidentId) as [Heq|_]; [|apply evolves_refl].
    assert (j = i) by congruence. subst j.
    repeat split; simpl; auto; congruence.
  - exists i. split; [|apply evolves_refl].
    unfold generateDemoIncidents.
    destruct (createAll_spec demoBatch now m Hbelow) as (_ & _ & Hsame & _).
    rewrite Hsame; [exact Hfind | exact Hk].
Qed.

(** **** Sequences of commands and reachable states *)

Lemma execAll_idsBelow cs m : idsBelow m -> idsBelow (execAll describeTransition demoBatch cs m).
Proof.
  revert m. induction cs as [|c cs IH]; intros m Hm; [exact Hm|].
  apply IH, exec_idsBelow, Hm.
Qed.

Lemma execAll_evolves cs m k i :
  idsBelow m -> findIncident k m = Some i ->
  exists i', findIncident k (execAll describeTransition demoBatch cs m) = Some i' /\ evolves i i'.
Proof.
  revert m i. induction cs as [|c cs IH]; intros m i Hm Hfind.
  - exists i. split; [exact Hfind | apply evolves_refl].
  - destruct (exec_evolves c m k i Hm Hfind) as (i1 & Hfind1 & Hev1).
    destruct (IH (exec describeTransition demoBatch c m) i1 (exec_idsBelow c m Hm) Hfind1) as (i2 & Hfind2 & Hev2).
    exists i2. split; [exact Hfind2 | exact (evolves_trans _ _ _ Hev1 Hev2)].
Qed.

Lemma reachable_invariant allowed m :
  reachableBy describeTransition demoBatch allowed m ->
  idsBelow m /\ Forall consistent (incidents m).
Proof.
  induction 1 as [|m c _ [Hbelow Hcons] _].
  - split; constructor.
  - split; [apply exec_idsBelow, Hbelow | apply exec_consistent; assumption].
Qed.

(** **** Counting open incidents *)

Lemma open_none_count target m : openIncidentFor target m = None -> openCount target m = 0.
Proof.
  unfold openIncidentFor, openCount.
  induction (incidents m) as [|a l IH]; simpl; [reflexivity|].
  destruct (isOpenFor target a); [discriminate | exact IH].
Qed.

Lemma open_some_count target m : openIncidentFor target m <> None -> 1 <= openCount target m.
Proof.
  unfold openIncidentFor, openCount.
  induction (incidents m) as [|a l IH]; simpl; [congruence|].
  destruct (isOpenFor target a); simpl; [lia | exact IH].
Qed.

Lemma create_openCount t d sev target now m target' :
  openCount target' (snd (create t d sev target now m)) =
    (if String.eqb target target' then 1 else 0) + openCount target' m.
Proof.
  unfold openCount, isOpenFor; simpl.
  destruct (String.eqb target target'); reflexivity.
Qed.

Lemma update_openCount_le k f m target :
  (forall i, isOpenFor target (f i) = true -> isOpenFor target i = true) ->
  openCount target (updateIncident k f m) <= openCount target m.
Proof.
  intros Hf. unfold openCount, updateIncident; simpl.
  induction (incidents m) as [|a l IH]; simpl; [lia|].
  destruct (N.eqb (id a) k).
  - destruct (isOpenFor target (f a)) eqn:E.
    + rewrite (Hf a E). simpl. lia.
    + destruct (isOpenFor target a); simpl; lia.
  - destruct (isOpenFor target a); simpl; lia.
Qed.

Lemma transition_noop target fromStatus toStatus now m :
  openIncidentFor target m <> None ->
  createFromHealthTransition describeTransition target fromStatus toStatus now m = (None, m).
Proof.
  intros Hopen. unfold createFromHealthTransition.
  destruct (isDegradation fromStatus toStatus); [|reflexivity].
  destruct (openIncidentFor target m); [reflexivity | congruence].
Qed.

Lemma repeat_noop target calls m :
  openIncidentFor target m <> None ->
  repeatTransitions describeTransition target calls m = m.
Proof.
  intros Hopen. induction calls as [|[[fromStatus toStatus] now] rest IH]; simpl;
    [reflexivity|].
  rewrite transition_noop by exact Hopen. exact IH.
Qed.

Lemma transition_creates target fromStatus toStatus now m :
  openIncidentFor target m = None ->
  isDegradation fromStatus toStatus = true ->
  let m' := snd (createFromHealthTransition describeTransition target fromStatus toStatus now m) in
  openIncidentFor target m' <> None /\ openCount target m' = 1.
Proof.
  intros Hnone Hdeg. unfold createFromHealthTransition. rewrite Hdeg, Hnone.
  destruct (describeTransition target fromStatus toStatus) as [[t d] sev].
  change (openIncidentFor target (snd (create t d sev target now m)) <> None /\
          openCount target (snd (create t d sev target now m)) = 1).
  rewrite create_openCount, String.eqb_refl, (open_none_count _ _ Hnone).
  split; [|reflexivity].
  unfold openIncidentFor, isOpenFor; simpl. rewrite String.eqb_refl. discriminate.
Qed.

(** The dedup discipline: at most one open incident per target. *)
Lemma exec_deduplicated c m :
  deduplicating c ->
  (forall target, openCount target m <= 1) ->
  forall target, openCount target (exec describeTransition demoBatch c m) <= 1.
Proof.
  intros Hc Hm target. destruct c; simpl in *; try contradiction.
  - destruct (transition_cases targetId fromStatus toStatus now m)
      as [E | (Hnone & _ & t & d & sev & E)]; rewrite E; [apply Hm|].
    rewrite create_openCount. destruct (String.eqb_spec targetId target) as [->|_].
    + rewrite (open_none_count _ _ Hnone). lia.
    + apply Hm.
  - unfold attachAnalysis. destruct (findIncident incidentId m) as [i|]; [|apply Hm].
    destruct (aiAnalysis i); [apply Hm|]. simpl.
    etransitivity; [apply update_openCount_le | apply Hm].
    intros j Hj. exact Hj.
  - unfold resolve. destruct (findIncident incidentId m) as [i|]; [|apply Hm].
    destruct (status i); [|apply Hm]. simpl.
    etransitivity; [apply update_openCount_le | apply Hm].
    intros j Hj. discriminate Hj.
Qed.

Lemma reachable_execAll allowed cs m :
  reachableBy describeTransition demoBatch allowed m ->
  Forall allowed cs ->
  reachableBy describeTransition demoBatch allowed (execAll describeTransition demoBatch cs m).
Proof.
  revert m. induction cs as [|c cs IH]; intros m Hm Hcs; [exact Hm|].
  inversion Hcs as [|? ? Hc Hrest]; subst.
  apply IH; [|exact Hrest]. apply reach_exec; assumption.
Qed.

Lemma reachable_deduplicated m :
  reachableBy describeTransition demoBatch deduplicating m ->
  forall target, openCount target m <= 1.
Proof.
  induction 1 as [|m c _ IH Hc].
  - intros target. unfold openCount; simpl. lia.
  - apply exec_deduplicated; assumption.
Qed.

End Commands.

(** **** The contracts of section 4.3 *)

(** C1, as the model has it: while an incident is open for the target,
    repeated [createFromHealthTransition] calls for it create nothing, the
    manager is left as it was; exactly one incident is then open for the
    target in every state reached without [create] and the demo command
    (which skip the dedup test); and with none open, one or more calls that
    report a degradation leave exactly one. *)
Theorem transition_dedup describeTransition demoBatch targetId calls m :
  (openIncidentFor targetId m <> None ->
   repeatTransitions describeTransition targetId calls m = m) /\
  (reachableBy describeTransition demoBatch deduplicating m ->
   openIncidentFor targetId m <> None ->
   openCount targetId (repeatTransitions describeTransition targetId calls m) = 1) /\
  (openIncidentFor targetId m = None ->
   calls <> [] ->
   Forall (fun call => isDegradation (fst (fst call)) (snd (fst call)) = true) calls ->
   openCount targetId (repeatTransitions describeTransition targetId calls m) = 1).
Proof.
  split; [|split].
  - apply repeat_noop.
  - intros Hreach Hopen. rewrite repeat_noop by exact Hopen.
    pose proof (reachable_deduplicated _ _ _ Hreach targetId).
    pose proof (open_some_count _ _ Hopen). lia.
  - intros Hnone Hcalls Hdeg.
    destruct calls as [|[[fromStatus toStatus] now] rest]; [congruence|].
    inversion Hdeg as [|? ? Hfirst _]; subst. simpl in Hfirst. simpl.
    destruct (transition_creates describeTransition targetId fromStatus toStatus now m
                Hnone Hfirst) as [Hopen Hone].
    rewrite repeat_noop by exact Hopen. exact Hone.
Qed.

Lemma transition_dedup_witness :
  let describe :=
    fun (target : string) (_ _ : HealthEvaluator.HealthStatus) =>
      ("Service unhealthy", target, high) in
  let m := exec describe []
             (CreateFromHealthTransition "sample-app" HealthEvaluator.healthy
                HealthEvaluator.unhealthy 100) empty in
  let calls := [(HealthEvaluator.healthy, HealthEvaluator.unhealthy, 200%Z);
                (HealthEvaluator.degraded, HealthEvaluator.unhealthy, 300%Z)] in
  openIncidentFor "sample-app" m <> None /\
  repeatTransitions describe "sample-app" calls m = m /\
  openCount "sample-app" (repeatTransitions describe "sample-app" calls m) = 1.
Proof.
  cbv zeta.
  set (describe := fun (target : string) (_ _ : HealthEvaluator.HealthStatus) =>
                     ("Service unhealthy", target, high)).
  set (m := exec describe [] _ empty).
  set (calls := [_; _]).
  assert (Hopen : openIncidentFor "sample-app" m <> None) by (vm_compute; discriminate).
  assert (Hreach : reachableBy describe [] deduplicating m).
  { apply reach_exec; [apply reach_empty | exact I]. }
  split; [exact Hopen|]. split.
  - exact (proj1 (transition_dedup describe [] "sample-app" calls m) Hopen).
  - exact (proj1 (proj2 (transition_dedup describe [] "sample-app" calls m)) Hreach Hopen).
Defined.

(** C1 as stated fails: two [create] calls for one target leave two open
    incidents for it; a [createFromHealthTransition] for that target then
    creates nothing, and two incidents, not one, are open for the target. *)
Lemma duplicate_open_incidents_remain :
  let describe :=
    fun (target : string) (_ _ : HealthEvaluator.HealthStatus) =>
      ("Service unhealthy", target, high) in
  let m := execAll describe []
             [Create "High error rate" "5xx responses" high "sample-app" 10;
              Create "Slow responses" "p95 latency" medium "sample-app" 20] empty in
  let m' := repeatTransitions describe "sample-app"
              [(HealthEvaluator.healthy, HealthEvaluator.unhealthy, 30%Z)] m in
  reachable describe [] m /\
  is_Some (openIncidentFor "sample-app" m) /\
  m' = m /\
  openCount "sample-app" m' = 2.
Proof.
  cbv zeta. split; [|split; [|split]].
  - apply reachable_execAll; [apply reach_empty | repeat constructor].
  - vm_compute. eexists. reflexivity.
  - vm_compute. reflexivity.
  - vm_compute. reflexivity.
Qed.

(** C2: [resolve] on an unknown id is a NotFoundError and changes nothing; on
    an open incident it sets [status = resolved] and [resolvedAt = now] and
    touches no other incident; on a resolved incident it does nothing; once
    resolved, an incident stays resolved, with its time, through every later
    command; and in every reachable state [resolvedAt] is set exactly on the
    resolved incidents. *)
Theorem resolve_contract describeTransition demoBatch :
  (forall incidentId now m,
     findIncident incidentId m = None ->
     resolve incidentId now m = (Err NotFoundError, m)) /\
  (forall incidentId now m i,
     findIncident incidentId m = Some i -> status i = open ->
     exists i' m',
       resolve incidentId now m = (Ok tt, m') /\
       findIncident incidentId m' = Some i' /\
       status i' = resolved /\ resolvedAt i' = Some now /\
       aiAnalysis i' = aiAnalysis i /\ createdAt i' = createdAt i /\
       (forall j, j <> incidentId -> findIncident j m' = findIncident j m)) /\
  (forall incidentId now m i,
     findIncident incidentId m = Some i -> status i = resolved ->
     resolve incidentId now m = (Ok tt, m)) /\
  (forall m incidentId i cs,
     reachable describeTransition demoBatch m ->
     findIncident incidentId m = Some i -> status i = resolved ->
     exists i',
       findIncident incidentId (execAll describeTransition demoBatch cs m) = Some i' /\
       status i' = resolved /\ resolvedAt i' = resolvedAt i) /\
  (forall m i,
     reachable describeTransition demoBatch m -> In i (incidents m) ->
     (resolvedAt i <> None <-> status i = resolved)).
Proof.
  repeat apply conj.
  - intros incidentId now m Hfind. unfold resolve. rewrite Hfind. reflexivity.
  - intros incidentId now m i Hfind Hopen.
    exists (markResolved now i), (updateIncident incidentId (markResolved now) m).
    unfold resolve. rewrite Hfind, Hopen.
    destruct (find_id _ _ _ Hfind) as [Hid _].
    repeat apply conj; try reflexivity.
    + rewrite find_update by reflexivity. rewrite Hfind. simpl.
      rewrite Hid, N.eqb_refl. reflexivity.
    + intros j Hj. apply find_update_other; [reflexivity | exact Hj].
  - intros incidentId now m i Hfind Hres. unfold resolve. rewrite Hfind, Hres. reflexivity.
  - intros m incidentId i cs Hreach Hfind Hres.
    destruct (reachable_invariant _ _ _ _ Hreach) as [Hbelow _].
    destruct (execAll_evolves describeTransition demoBatch cs m incidentId i Hbelow Hfind)
      as (i' & Hfind' & _ & _ & Hstay).
    exists i'. destruct (Hstay Hres) as [Hs Hr]. auto.
  - intros m i Hreach Hin.
    destruct (reachable_invariant _ _ _ _ Hreach) as [_ Hcons].
    rewrite List.Forall_forall in Hcons. exact (Hcons i Hin).
Qed.

Lemma resolve_contract_witness :
  let describe :=
    fun (target : string) (_ _ : HealthEvaluator.HealthStatus) =>
      ("Service unhealthy", target, high) in
  let m := snd (create "High error rate" "5xx responses" high "sample-app" 10 empty) in
  (findIncident 7 m = None /\ resolve 7 50 m = (Err NotFoundError, m)) /\
  (exists i, findIncident 1 m = Some i /\ status i = open /\
     exists i' m',
       resolve 1 50 m = (Ok tt, m') /\
       findIncident 1 m' = Some i' /\
       status i' = resolved /\ resolvedAt i' = Some 50%Z /\
       aiAnalysis i' = aiAnalysis i /\ createdAt i' = createdAt i /\
       (forall j, j <> 1%N -> findIncident j m' = findIncident j m)).
Proof.
  cbv zeta.
  set (describe := fun (target : string) (_ _ : HealthEvaluator.HealthStatus) =>
                     ("Service unhealthy", target, high)).
  set (m := snd (create "High error rate" "5xx responses" high "sample-app" 10 empty)).
  assert (Hnone : findIncident 7 m = None) by reflexivity.
  split.
  - split; [exact Hnone|].
    exact (proj1 (resolve_contract describe []) 7%N 50%Z m Hnone).
  - eexists. split; [reflexivity|]. split; [reflexivity|].
    exact (proj1 (proj2 (resolve_contract describe [])) 1%N 50%Z m _ eq_refl eq_refl).
Defined.

(** C3: [attachAnalysis] sets a null [aiAnalysis] to the text and touches
    nothing else of the incident's lifecycle; on an incident whose analysis
    is set it succeeds and changes nothing; a second call for the same
    incident therefore leaves the manager as the first call left it; and in
    every reachable state an analysis that is set keeps its value through
    every later command. *)
Theorem attachAnalysis_contract describeTransition demoBatch :
  (forall incidentId text m i,
     findIncident incidentId m = Some i -> aiAnalysis i = None ->
     exists i' m',
       attachAnalysis incidentId text m = (Ok i', m') /\
       findIncident incidentId m' = Some i' /\
       aiAnalysis i' = Some text /\
       status i' = status i /\ resolvedAt i' = resolvedAt i) /\
  (forall incidentId text m i a,
     findIncident incidentId m = Some i -> aiAnalysis i = Some a ->
     attachAnalysis incidentId text m = (Ok i, m)) /\
  (forall incidentId text1 text2 m,
     snd (attachAnalysis incidentId text2 (snd (attachAnalysis incidentId text1 m))) =
       snd (attachAnalysis incidentId text1 m)) /\
  (forall m incidentId i a cs,
     reachable describeTransition demoBatch m ->
     findIncident incidentId m = Some i -> aiAnalysis i = Some a ->
     exists i',
       findIncident incidentId (execAll describeTransition demoBatch cs m) = Some i' /\
       aiAnalysis i' = Some a).
Proof.
  assert (Hset : forall incidentId text m i,
            findIncident incidentId m = Some i -> aiAnalysis i = None ->
            attachAnalysis incidentId text m =
              (Ok (withAnalysis text i), updateIncident incidentId (withAnalysis text) m) /\
            findIncident incidentId (updateIncident incidentId (withAnalysis text) m) =
              Some (withAnalysis text i)).
  { intros incidentId text m i Hfind Hnull. split.
    - unfold attachAnalysis. rewrite Hfind, Hnull. reflexivity.
    - destruct (find_id _ _ _ Hfind) as [Hid _].
      rewrite find_update by reflexivity. rewrite Hfind. simpl.
      rewrite Hid, N.eqb_refl. reflexivity. }
  assert (Hkeep : forall incidentId text m i a,
            findIncident incidentId m = Some i -> aiAnalysis i = Some a ->
            attachAnalysis incidentId text m = (Ok i, m)).
  { intros incidentId text m i a Hfind Ha.
    unfold attachAnalysis. rewrite Hfind, Ha. reflexivity. }
  repeat apply conj.
  - intros incidentId text m i Hfind Hnull.
    destruct (Hset incidentId text m i Hfind Hnull) as [Hrun Hfound].
    exists (withAnalysis text i), (updateIncident incidentId (withAnalysis text) m).
    repeat apply conj; try reflexivity; assumption.
  - exact Hkeep.
  - intros incidentId text1 text2 m.
    destruct (findIncident incidentId m) as [i|] eqn:Hfind.
    + destruct (aiAnalysis i) as [a|] eqn:Ha.
      * rewrite (Hkeep _ text1 _ _ _ Hfind Ha). simpl.
        rewrite (Hkeep _ text2 _ _ _ Hfind Ha). reflexivity.
      * destruct (Hset incidentId text1 m i Hfind Ha) as [Hrun Hfound].
        rewrite Hrun. simpl.
        rewrite (Hkeep _ text2 _ _ text1 Hfound eq_refl). reflexivity.
    + unfold attachAnalysis. rewrite Hfind. simpl. rewrite Hfind. reflexivity.
  - intros m incidentId i a cs Hreach Hfind Ha.
    destruct (reachable_invariant _ _ _ _ Hreach) as [Hbelow _].
    destruct (execAll_evolves describeTransition demoBatch cs m incidentId i Hbelow Hfind)
      as (i' & Hfind' & _ & Hkept & _).
    exists i'. split; [exact Hfind' | exact (Hkept a Ha)].
Qed.

Lemma attachAnalysis_contract_witness :
  let describe :=
    fun (target : string) (_ _ : HealthEvaluator.HealthStatus) =>
      ("Service unhealthy", target, high) in
  let m := snd (create "High error rate" "5xx responses" high "sample-app" 10 empty) in
  let m1 := snd (attachAnalysis 1 "Connection pool exhausted" m) in
  exists i,
    findIncident 1 m1 = Some i /\
    aiAnalysis i = Some "Connection pool exhausted" /\
    attachAnalysis 1 "Memory leak" m1 = (Ok i, m1).
Proof.
  cbv zeta.
  set (describe := fun (target : string) (_ _ : HealthEvaluator.HealthStatus) =>
                     ("Service unhealthy", target, high)).
  set (m1 := snd (attachAnalysis 1 "Connection pool exhausted" _)).
  eexists. split; [reflexivity|]. split; [reflexivity|].
  exact (proj1 (proj2 (attachAnalysis_contract describe []))
           1%N "Memory leak" m1 _ "Connection pool exhausted" eq_refl eq_refl).
Defined.

End IncidentManager.

(** *** SLA Calculator (section 4.5) *)

Module SLACalculator.

(** Modelled from the spec: one entry of the health-history log of section
    4.2 (main.py is missing): a status and the time it was read. *)
Record HealthSample := {
  sampledAt : Z;
  sampleStatus : HealthEvaluator.HealthStatus
}.

(** Modelled from the spec: the readings that count as downtime (main.py is
    missing): the [unhealthy] ones. *)
Definition isUnhealthy (s : HealthSample) : bool :=
  match sampleStatus s with
  | HealthEvaluator.unhealthy => true
  | _ => false
  end.

(** Modelled from the spec: total time in [unhealthy] (main.py is missing),
    by the first of the two conventions of section 4.5: a contiguous run of
    unhealthy readings lasts from its first to its last sample. [run] is the
    run being read, as the times of its first and latest sample. *)
Fixpoint downtimeFrom (run : option (Z * Z)) (history : list HealthSample) : Z :=
  match history with
  | [] =>
      match run with
      | Some (first, latest) => latest - first
      | None => 0
      end
  | s :: rest =>
      if isUnhealthy s then
        match run with
        | Some (first, _) => downtimeFrom (Some (first, sampledAt s)) rest
        | None => downtimeFrom (Some (sampledAt s, sampledAt s)) rest
        end
      else
        match run with
        | Some (first, latest) => (latest - first) + downtimeFrom None rest
        | None => downtimeFrom None rest
        end
  end.

(** Modelled from the spec: the downtime of a health history, in
    milliseconds (main.py is missing). *)
Definition downtimeMs (history : list HealthSample) : Z := downtimeFrom None history.

(** Modelled from the spec: membership of the rolling window (main.py is
    missing). *)
Definition inWindow (windowStart windowEnd t : Z) : bool :=
  (windowStart <=? t)%Z && (t <=? windowEnd)%Z.

(** Modelled from the spec: the SLAReport of section 3 (main.py is
    missing). *)
Record SLAReport := {
  availabilityPercentage : Q;
  uptimePercentage : Q;
  downtimeMinutes : Q;
  slaTarget : Q;
  mttrMinutes : Q;
  incidentCount : nat;
  lastUpdated : Z
}.

(** Modelled from the spec: the time to resolution of an incident that was
    created and resolved inside the window (main.py is missing). *)
Definition resolutionMs (windowStart windowEnd : Z) (i : IncidentManager.Incident)
    : option Z :=
  match IncidentManager.status i, IncidentManager.resolvedAt i with
  | IncidentManager.resolved, Some r =>
      if inWindow windowStart windowEnd (IncidentManager.createdAt i)
         && inWindow windowStart windowEnd r
      then Some (r - IncidentManager.createdAt i)%Z
      else None
  | _, _ => None
  end.

(** Modelled from the spec: [mttrMinutes] of section 4.5 (main.py is
    missing): the mean over the resolved incidents of the window, 0 when
    there is none. *)
Definition mttr (windowStart windowEnd : Z) (incidents : list IncidentManager.Incident) : Q :=
  match omap (resolutionMs windowStart windowEnd) incidents with
  | [] => 0%Q
  | durations =>
      (minutesOfMs (foldr Z.add 0%Z durations) / inject_Z (Z.of_nat (length durations)))%Q
  end.

(** Modelled from the spec: [incidentCount] of section 4.5 (main.py is
    missing): the incidents that are open now. *)
Definition openIncidents (incidents : list IncidentManager.Incident) : nat :=
  length (List.filter
            (fun i => match IncidentManager.status i with
                      | IncidentManager.open => true
                      | IncidentManager.resolved => false
                      end) incidents).

(** Modelled from the spec: [compute] of section 4.5 (main.py is missing),
    on the health history and the incidents of the scope asked for; no
    exclusion policy, so availability is uptime. *)
Definition compute (target : Q) (windowStart windowEnd : Z)
    (history : list HealthSample) (incidents : list IncidentManager.Incident) (now : Z)
    : SLAReport :=
  let windowMinutes := minutesOfMs (windowEnd - windowStart) in
  let downtime :=
    minutesOfMs
      (downtimeMs (List.filter (fun s => inWindow windowStart windowEnd (sampledAt s)) history)) in
  let uptime := (100 * (windowMinutes - downtime) / windowMinutes)%Q in
  {| availabilityPercentage := uptime;
     uptimePercentage := uptime;
     downtimeMinutes := downtime;
     slaTarget := target;
     mttrMinutes := mttr windowStart windowEnd incidents;
     incidentCount := openIncidents incidents;
     lastUpdated := now |}.

(** A history that holds one run of unhealthy readings, [first] and then
    [more], between readings of other states. *)
Definition oneRun (before : list HealthSample) (first : HealthSample)
    (more after : list HealthSample) : list HealthSample :=
  before ++ first :: more ++ after.

Lemma filter_all {A} (f : A -> bool) (l : list A) :
  Forall (fun x => f x = true) l -> List.filter f l = l.
Proof.
  induction 1 as [|x l Hx _ IH]; simpl; [reflexivity|].
  rewrite Hx, IH. reflexivity.
Qed.

Lemma downtime_after run after :
  Forall (fun s => isUnhealthy s = false) after ->
  downtimeFrom run after =
    match run with Some (first, latest) => (latest - first)%Z | None => 0%Z end.
Proof.
  intros H. revert run. induction H as [|s after Hs _ IH]; intros run; simpl.
  - reflexivity.
  - rewrite Hs. destruct run as [[first latest]|]; rewrite (IH None); simpl; lia.
Qed.

Lemma last_cons {A} (a : A) (l : list A) (d : A) : List.last (a :: l) d = List.last l a.
Proof.
  revert a d. induction l as [|b l IH]; intros a d; [reflexivity|].
  change (List.last (a :: b :: l) d) with (List.last (b :: l) d).
  rewrite (IH b d), (IH b a). reflexivity.
Qed.

Lemma downtime_run first latest more after :
  Forall (fun s => isUnhealthy s = true) more ->
  Forall (fun s => isUnhealthy s = false) after ->
  downtimeFrom (Some (first, sampledAt latest)) (more ++ after) =
    (sampledAt (List.last more latest) - first)%Z.
Proof.
  intros Hmore Hafter. revert latest.
  induction Hmore as [|s more Hs _ IH]; intros latest.
  - simpl. apply (downtime_after (Some (first, sampledAt latest))), Hafter.
  - rewrite last_cons. simpl. rewrite Hs. apply IH.
Qed.

Lemma downtime_oneRun before first more after :
  Forall (fun s => isUnhealthy s = false) before ->
  isUnhealthy first = true ->
  Forall (fun s => isUnhealthy s = true) more ->
  Forall (fun s => isUnhealthy s = false) after ->
  downtimeMs (oneRun before first more after) =
    (sampledAt (List.last more first) - sampledAt first)%Z.
Proof.
  intros Hbefore Hfirst Hmore Hafter. unfold downtimeMs, oneRun.
  induction Hbefore as [|s before Hs _ IH]; simpl.
  - rewrite Hfirst. apply downtime_run; assumption.
  - rewrite Hs. exact IH.
Qed.

(** C4: the report's uptime is [100 * (windowMinutes - downtimeMinutes) /
    windowMinutes] and its availability is its uptime; and for a history with
    one unhealthy run whose first and last reading are 10 minutes apart,
    inside a window of 43200 minutes, the downtime is 10 minutes and the
    availability is [100 * 43190 / 43200], which lies between 99.9767 and
    99.9769. *)
Theorem sla_uptime_and_ten_minute_run target windowStart windowEnd history incidents now :
  let r := compute target windowStart windowEnd history incidents now in
  let windowMinutes := minutesOfMs (windowEnd - windowStart) in
  (uptimePercentage r == 100 * (windowMinutes - downtimeMinutes r) / windowMinutes)%Q /\
  availabilityPercentage r = uptimePercentage r /\
  (forall before first more after,
     history = oneRun before first more after ->
     Forall (fun s => isUnhealthy s = false) before ->
     isUnhealthy first = true ->
     Forall (fun s => isUnhealthy s = true) more ->
     Forall (fun s => isUnhealthy s = false) after ->
     Forall (fun s => inWindow windowStart windowEnd (sampledAt s) = true) history ->
     (sampledAt (List.last more first) - sampledAt first = 10 * 60000)%Z ->
     (windowEnd - windowStart = 43200 * 60000)%Z ->
     (downtimeMinutes r == 10)%Q /\
     (availabilityPercentage r == 100 * 43190 / 43200)%Q /\
     (999767 # 10000 < availabilityPercentage r)%Q /\
     (availabilityPercentage r < 999769 # 10000)%Q).
Proof.
  cbv zeta. split; [|split].
  - unfold compute; simpl. reflexivity.
  - reflexivity.
  - intros before first more after Hhistory Hbefore Hfirst Hmore Hafter Hwindow Hrun Hlength.
    assert (Hdown :
      downtimeMinutes (compute target windowStart windowEnd history incidents now) =
        minutesOfMs (10 * 60000)).
    { unfold compute; simpl. rewrite (filter_all _ _ Hwindow).
      rewrite Hhistory, (downtime_oneRun _ _ _ _ Hbefore Hfirst Hmore Hafter), Hrun.
      reflexivity. }
    assert (Havailability :
      availabilityPercentage (compute target windowStart windowEnd history incidents now) =
        (100 * (minutesOfMs (43200 * 60000) - minutesOfMs (10 * 60000))
           / minutesOfMs (43200 * 60000))%Q).
    { unfold compute in *; simpl in *. rewrite Hdown, Hlength. reflexivity. }
    rewrite Hdown, Havailability. repeat split.
Qed.

Lemma sla_uptime_and_ten_minute_run_witness :
  let at_ := fun (minute : Z) (st : HealthEvaluator.HealthStatus) =>
               {| sampledAt := minute * 60000; sampleStatus := st |} in
  let history :=
    oneRun [at_ 0%Z HealthEvaluator.healthy; at_ 5%Z HealthEvaluator.degraded]
           (at_ 10%Z HealthEvaluator.unhealthy)
           [at_ 15%Z HealthEvaluator.unhealthy; at_ 20%Z HealthEvaluator.unhealthy]
           [at_ 25%Z HealthEvaluator.healthy] in
  let r := compute (999 # 10) 0 (43200 * 60000) history [] (43200 * 60000) in
  (downtimeMinutes r == 10)%Q /\
  (availabilityPercentage r == 100 * 43190 / 43200)%Q /\
  (999767 # 10000 < availabilityPercentage r)%Q /\
  (availabilityPercentage r < 999769 # 10000)%Q.
Proof.
  cbv zeta.
  set (at_ := fun (minute : Z) (st : HealthEvaluator.HealthStatus) =>
                {| sampledAt := minute * 60000; sampleStatus := st |}).
  refine (proj2 (proj2 (sla_uptime_and_ten_minute_run (999 # 10) 0 (43200 * 60000) _ [] _))
            [at_ 0%Z HealthEvaluator.healthy; at_ 5%Z HealthEvaluator.degraded]
            (at_ 10%Z HealthEvaluator.unhealthy)
            [at_ 15%Z HealthEvaluator.unhealthy; at_ 20%Z HealthEvaluator.unhealthy]
            [at_ 25%Z HealthEvaluator.healthy]
            eq_refl _ eq_refl _ _ _ eq_refl eq_refl);
    repeat constructor.
Defined.

End SLACalculator.

(** ** More of the dashboard: the incident list, the health overview, the
    metrics chart and the polling application shell *)

(** *** [IncidentsPanel.js] *)

Module IncidentsPanel.

(** One element of the [incidents] prop, as the component reads it. [None]
    is a field that is null or absent. *)
Record incident := {
  id : N;
  title : string;
  description : string;
  severity : string;
  status : string;
  created_at : string;
  resolved_at : option string;
  ai_analysis : option string
}.

(** [getSeverityColor] *)
Definition getSeverityColor (severity : string) : string :=
  if String.eqb severity "high" then "bg-red-400/20 text-red-400 border-red-400/30"
  else if String.eqb severity "medium" then "bg-yellow-400/20 text-yellow-400 border-yellow-400/30"
  else if String.eqb severity "low" then "bg-blue-400/20 text-blue-400 border-blue-400/30"
  else "bg-slate-400/20 text-slate-400 border-slate-400/30".

(** The three icons [getStatusIcon] picks from. *)
Inductive statusIcon := XCircle | CheckCircle | Clock.

(** [getStatusIcon] *)
Definition getStatusIcon (status : string) : statusIcon :=
  if String.eqb status "open" then XCircle
  else if String.eqb status "resolved" then CheckCircle
  else Clock.

(** Truthiness of a field that is null or a string: the empty string is
    falsy. *)
Definition truthy (field : option string) : bool :=
  match field with
  | Some (String _ _) => true
  | _ => false
  end.

(** The button of the AI section: absent, offering an analysis, or
    disabled while [analyzingIncident === incident.id]. *)
Inductive analysisButton := NoButton | GenerateAnalysis | Analyzing.

(** The body of the AI section: the analysis, or the placeholder text. *)
Inductive analysisBlock := Analysis (text : string) | NoAnalysisAvailable.

(** What is drawn for one incident, date formatting and markup aside. *)
Record entry := {
  entryIcon : statusIcon;
  entryTitle : string;
  entrySeverityClass : string;
  entrySeverityLabel : string;
  entryDescription : string;
  entryId : N;
  entryCreated : string;
  entryResolved : option string;
  entryButton : analysisButton;
  entryAnalysis : analysisBlock
}.

(** The panel: the empty card, or the entries and the summary line. *)
Inductive panel :=
| NoIncidents
| Incidents (entries : list entry) (total openTotal resolvedTotal : nat).

Section Component.

(** [String.prototype.toUpperCase]. *)
Variable toUpperCase : string -> string.

(** The body of [incidents.map(...)]; [analyzingIncident] is the
    component's state. *)
Definition renderIncident (analyzingIncident : option N) (i : incident) : entry :=
  {| entryIcon := getStatusIcon (status i);
     entryTitle := title i;
     entrySeverityClass := getSeverityColor (severity i);
     entrySeverityLabel := toUpperCase (severity i);
     entryDescription := description i;
     entryId := id i;
     entryCreated := created_at i;
     entryResolved := if truthy (resolved_at i) then resolved_at i else None;
     entryButton :=
       if negb (truthy (ai_analysis i)) then
         match analyzingIncident with
         | Some n => if N.eqb n (id i) then Analyzing else GenerateAnalysis
         | None => GenerateAnalysis
         end
       else NoButton;
     entryAnalysis :=
       if truthy (ai_analysis i) then Analysis (default "" (ai_analysis i))
       else NoAnalysisAvailable |}.

(** The component; [None] is an [incidents] prop that is null or
    undefined. *)
Definition IncidentsPanel (analyzingIncident : option N) (incidents : option (list incident))
    : panel :=
  match incidents with
  | None => NoIncidents
  | Some [] => NoIncidents
  | Some l =>
      Incidents (map (renderIncident analyzingIncident) l)
        (length l)
        (length (List.filter (fun i => String.eqb (status i) "open") l))
        (length (List.filter (fun i => String.eqb (status i) "resolved") l))
  end.

End Component.

(** How many entries carry a given icon. *)
Definition iconCount (icon : statusIcon) (entries : list entry) : nat :=
  length (List.filter
            (fun e => match entryIcon e, icon with
                      | XCircle, XCircle | CheckCircle, CheckCircle | Clock, Clock => true
                      | _, _ => false
                      end) entries).

Lemma summary_counts toUpperCase analyzingIncident (l : list incident) :
  let entries := map (renderIncident toUpperCase analyzingIncident) l in
  let openTotal := length (List.filter (fun i => String.eqb (status i) "open") l) in
  let resolvedTotal := length (List.filter (fun i => String.eqb (status i) "resolved") l) in
  length entries = length l /\
  iconCount XCircle entries = openTotal /\
  iconCount CheckCircle entries = resolvedTotal /\
  openTotal + resolvedTotal + iconCount Clock entries = length l.
Proof.
  cbv zeta. unfold iconCount. induction l as [|i l IH]; [repeat split|].
  destruct IH as (Hlen & Hopen & Hres & Hsum).
  cbn [map List.filter length renderIncident entryIcon]. unfold getStatusIcon.
  destruct (String.eqb_spec (status i) "open") as [E|_].
  - rewrite E. cbn [String.eqb Ascii.eqb Bool.eqb length]. simpl. repeat split; lia.
  - destruct (String.eqb (status i) "resolved"); cbn [length]; repeat split; lia.
Qed.

(** X7: whenever the list is not empty the panel draws one entry per incident
    and a summary whose Total is the length of the list, whose Open is the
    number of entries with the open icon and whose Resolved is the number
    with the resolved icon; an incident with any other status gets the clock
    icon and is counted in Total only, so Open + Resolved can be less than
    Total. *)
Theorem incidents_summary_counts toUpperCase analyzingIncident (l : list incident) :
  l <> [] ->
  exists entries openTotal resolvedTotal,
    IncidentsPanel toUpperCase analyzingIncident (Some l) =
      Incidents entries (length l) openTotal resolvedTotal /\
    length entries = length l /\
    iconCount XCircle entries = openTotal /\
    iconCount CheckCircle entries = resolvedTotal /\
    openTotal + resolvedTotal + iconCount Clock entries = length l.
Proof.
  intros Hne. destruct l as [|i l]; [congruence|].
  eexists _, _, _. split; [reflexivity|].
  apply (summary_counts toUpperCase analyzingIncident (i :: l)).
Qed.

Lemma incidents_summary_counts_witness :
  let l := [ {| id := 1; title := "High error rate"; description := "5xx";
                severity := "high"; status := "open"; created_at := "2026-01-01";
                resolved_at := None; ai_analysis := None |};
             {| id := 2; title := "Slow responses"; description := "p95";
                severity := "low"; status := "investigating"; created_at := "2026-01-02";
                resolved_at := None; ai_analysis := Some "" |} ] in
  l <> [] /\
  exists entries openTotal resolvedTotal,
    IncidentsPanel (fun s => s) None (Some l) =
      Incidents entries (length l) openTotal resolvedTotal /\
    length entries = length l /\
    iconCount XCircle entries = openTotal /\
    iconCount CheckCircle entries = resolvedTotal /\
    openTotal + resolvedTotal + iconCount Clock entries = length l.
Proof.
  cbv zeta. split; [discriminate|].
  apply incidents_summary_counts. discriminate.
Defined.

(** X8: for every incident exactly one of the two is drawn: the analysis text
    and no button, when [ai_analysis] is a non-empty string; or the
    placeholder with the button, when it is null or the empty string. The
    button is the disabled "Analyzing..." one exactly for the incident whose
    id is [analyzingIncident]. *)
Theorem analysis_shown_or_offered toUpperCase analyzingIncident (i : incident) :
  let e := renderIncident toUpperCase analyzingIncident i in
  ((exists text, ai_analysis i = Some text /\ text <> "" /\
      entryAnalysis e = Analysis text /\ entryButton e = NoButton) \/
   ((ai_analysis i = None \/ ai_analysis i = Some "") /\
      entryAnalysis e = NoAnalysisAvailable /\ entryButton e <> NoButton)) /\
  (entryButton e = Analyzing <->
   truthy (ai_analysis i) = false /\ analyzingIncident = Some (id i)).
Proof.
  cbv zeta. unfold renderIncident; simpl.
  destruct (ai_analysis i) as [[|a text]|] eqn:E; simpl.
  - split.
    + right. repeat split; auto.
      destruct analyzingIncident as [n|]; [destruct (N.eqb n (id i))|]; discriminate.
    + destruct analyzingIncident as [n|]; [destruct (N.eqb_spec n (id i))|].
      * subst. split; auto.
      * split; [discriminate | intros [_ H]; congruence].
      * split; [discriminate | intros [_ H]; discriminate H].
  - split.
    + left. exists (String a text). repeat split; auto; discriminate.
    + split; [discriminate | intros [H _]; discriminate H].
  - split.
    + right. repeat split; auto.
      destruct analyzingIncident as [n|]; [destruct (N.eqb n (id i))|]; discriminate.
    + destruct analyzingIncident as [n|]; [destruct (N.eqb_spec n (id i))|].
      * subst. split; auto.
      * split; [discriminate | intros [_ H]; congruence].
      * split; [discriminate | intros [_ H]; discriminate H].
Qed.

End IncidentsPanel.

(** *** [HealthOverview.js] *)

Module HealthOverview.

(** The icons [getStatusIcon] picks from. *)
Inductive statusIcon := CheckCircle | AlertTriangle | XCircle | Server.

(** [getStatusIcon] *)
Definition getStatusIcon (status : string) : statusIcon :=
  if String.eqb status "healthy" then CheckCircle
  else if String.eqb status "degraded" then AlertTriangle
  else if String.eqb status "unhealthy" then XCircle
  else Server.

(** [getStatusClass] *)
Definition getStatusClass (status : string) : string :=
  if String.eqb status "healthy" then "status-healthy"
  else if String.eqb status "degraded" then "status-degraded"
  else if String.eqb status "unhealthy" then "status-unhealthy"
  else "text-slate-400".

(** [s.replace(pattern, replacement)] for a pattern and a replacement of one
    character each: the first occurrence is replaced, later ones stay. *)
Fixpoint replaceFirst (pattern replacement : ascii) (s : string) : string :=
  match s with
  | EmptyString => EmptyString
  | String a rest =>
      if Ascii.eqb a pattern then String replacement rest
      else String a (replaceFirst pattern replacement rest)
  end.

(** [serviceName.replace('_', ' ')]: the heading of a service tile. *)
Definition displayName (serviceName : string) : string :=
  replaceFirst "_"%char " "%char serviceName.

(** One value of [data.services]. *)
Record service := {
  serviceStatus : string;
  url : string
}.

(** The [/health] response the component is given as [data]; [services] are
    the entries of the object in the order [Object.entries] lists them. *)
Record health := {
  status : string;
  services : list (string * service);
  timestamp : string
}.

(** One service tile. *)
Record tile := {
  tileName : string;
  tileIcon : statusIcon;
  tileClass : string;
  tileStatus : string;
  tileUrl : string
}.

(** What the component draws, date formatting and markup aside. *)
Record overview := {
  badgeClass : string;
  badgeIcon : statusIcon;
  badgeText : string;
  tiles : list tile;
  lastUpdated : string
}.

Section Component.

(** [String.prototype.toUpperCase]. *)
Variable toUpperCase : string -> string.

(** The component; [None] is a [data] that is null or undefined, and a
    result of [None] is the component rendering nothing. *)
Definition HealthOverview (data : option health) : option overview :=
  match data with
  | None => None
  | Some data =>
      Some {| badgeClass := getStatusClass (status data);
              badgeIcon := getStatusIcon (status data);
              badgeText := toUpperCase (status data);
              tiles := map (fun entry : string * service =>
                              let (serviceName, service) := entry in
                              {| tileName := displayName serviceName;
                                 tileIcon := getStatusIcon (serviceStatus service);
                                 tileClass := getStatusClass (serviceStatus service);
                                 tileStatus := serviceStatus service;
                                 tileUrl := url service |})
                           (services data);
              lastUpdated := timestamp data |}
  end.

End Component.

(** A string without the character [c]. *)
Fixpoint lacks (c : ascii) (s : string) : bool :=
  match s with
  | EmptyString => true
  | String a rest => negb (Ascii.eqb a c) && lacks c rest
  end.

(** X9: the tile heading replaces only the first underscore of the service
    name: what stands before it and everything after it, later underscores
    included, is shown unchanged; a name without an underscore is shown as it
    is; and the heading is as long as the name. *)
Theorem service_name_first_underscore :
  (forall before after,
     lacks "_"%char before = true ->
     displayName (before ++ String "_"%char after) = before ++ String " "%char after) /\
  (forall name, lacks "_"%char name = true -> displayName name = name) /\
  (forall name, String.length (displayName name) = String.length name).
Proof.
  unfold displayName. repeat split.
  - intros before after. induction before as [|a before IH]; simpl; [reflexivity|].
    intros H. apply andb_prop in H. destruct H as [Ha Hbefore].
    apply negb_true_iff in Ha. rewrite Ha, (IH Hbefore). reflexivity.
  - intros name. induction name as [|a name IH]; simpl; [reflexivity|].
    intros H. apply andb_prop in H. destruct H as [Ha Hname].
    apply negb_true_iff in Ha. rewrite Ha, (IH Hname). reflexivity.
  - intros name. induction name as [|a name IH]; simpl; [reflexivity|].
    destruct (Ascii.eqb a "_"); simpl; [reflexivity | rewrite IH; reflexivity].
Qed.

Lemma service_name_first_underscore_witness :
  lacks "_"%char "sample" = true /\
  displayName "sample_node_app" = "sample node_app".
Proof.
  split; [reflexivity|].
  exact (proj1 service_name_first_underscore "sample" "node_app" eq_refl).
Defined.

(** X10: icon and colour class recognise the same three statuses: for healthy,
    degraded and unhealthy the class is [status-] followed by the status and
    the icon is the status's own; for any other status, differently cased
    ones included, the class is the grey default exactly when the icon is
    the server icon. *)
Theorem status_icon_matches_class (status : string) :
  (getStatusIcon status = Server <-> getStatusClass status = "text-slate-400") /\
  (getStatusIcon status <> Server -> getStatusClass status = "status-" ++ status) /\
  (getStatusIcon status <> Server <->
   status = "healthy" \/ status = "degraded" \/ status = "unhealthy").
Proof.
  unfold getStatusIcon, getStatusClass.
  destruct (String.eqb_spec status "healthy") as [->|H1].
  { repeat split; intros H; try discriminate H; try reflexivity; auto. }
  destruct (String.eqb_spec status "degraded") as [->|H2].
  { repeat split; intros H; try discriminate H; try reflexivity; auto. }
  destruct (String.eqb_spec status "unhealthy") as [->|H3].
  { repeat split; intros H; try discriminate H; try reflexivity; auto. }
  repeat split; intros H; try reflexivity; try congruence.
  destruct H as [H|[H|H]]; congruence.
Qed.

Lemma status_icon_matches_class_witness :
  getStatusIcon "degraded" <> Server /\ getStatusClass "degraded" = "status-degraded".
Proof.
  assert (H : getStatusIcon "degraded" <> Server) by discriminate.
  split; [exact H|].
  exact (proj1 (proj2 (status_icon_matches_class "degraded")) H).
Defined.

End HealthOverview.

(** *** [MetricsChart.js] *)

Module MetricsChart.

(** One element of the [metrics] prop. *)
Record sample := {
  request_count : N;
  error_count : N;
  response_time_avg : Q;
  timestamp : string
}.

(** What the component draws: the empty card; or the three key figures, the
    series of the area chart and the caption's number of data points; or
    nothing at all, if reading a field of [latestMetrics] threw a
    TypeError. *)
Inductive chart :=
| NoMetrics
| Chart (requests errors : N) (average : Q) (series : list sample) (dataPoints : nat)
| TypeError.

(** The component; [None] is a [metrics] prop that is null or undefined.
    [metrics[metrics.length - 1]] is a lookup, undefined out of range. *)
Definition MetricsChart (metrics : option (list sample)) : chart :=
  match metrics with
  | None => NoMetrics
  | Some l =>
      if Nat.eqb (length l) 0 then NoMetrics
      else
        match l !! (length l - 1) with
        | None => TypeError
        | Some latestMetrics =>
            Chart (request_count latestMetrics) (error_count latestMetrics)
                  (response_time_avg latestMetrics) l (length l)
        end
  end.

(** X11: the chart never fails on its index: with no samples it shows the empty
    card, and otherwise its three key figures are those of the sample added
    last, whatever came before, with the whole series charted. *)
Theorem chart_shows_latest_sample :
  MetricsChart None = NoMetrics /\
  MetricsChart (Some []) = NoMetrics /\
  (forall metrics, MetricsChart metrics <> TypeError) /\
  (forall (earlier : list sample) (latest : sample),
     MetricsChart (Some (earlier ++ [latest])%list) =
       Chart (request_count latest) (error_count latest) (response_time_avg latest)
             (earlier ++ [latest])%list (S (length earlier))).
Proof.
  assert (Hlast : forall (earlier : list sample) (latest : sample),
            MetricsChart (Some (earlier ++ [latest])%list) =
              Chart (request_count latest) (error_count latest) (response_time_avg latest)
                    (earlier ++ [latest])%list (S (length earlier))).
  { intros earlier latest. unfold MetricsChart.
    rewrite length_app. simpl length.
    replace (length earlier + 1) with (S (length earlier)) by lia.
    simpl Nat.eqb. cbv iota.
    replace (S (length earlier) - 1) with (length earlier + 0) by lia.
    rewrite lookup_app_r by lia.
    replace (length earlier + 0 - length earlier) with 0 by lia. reflexivity. }
  repeat split; try reflexivity; [|exact Hlast].
  intros [l|]; [|discriminate].
  destruct l as [|latest earlier _] using rev_ind; [discriminate|].
  rewrite Hlast. discriminate.
Qed.

End MetricsChart.

(** *** [App.js]: the polling shell *)

Module App.

Section Shell.

(** The bodies of the four responses; the shell only stores them and hands
    them to the components. *)
Variables (Health Metric Incident Sla : Type).

(** The six [useState] cells. *)
Record state := {
  healthData : option Health;
  metrics : list Metric;
  incidents : list Incident;
  slaData : option Sla;
  loading : bool;
  error : option string
}.

(** The initial values of the [useState] calls. *)
Definition initial : state :=
  {| healthData := None; metrics := []; incidents := []; slaData := None;
     loading := true; error := None |}.

(** How one [fetchData] call ends: [Promise.all] gave the four bodies, or
    one of the four requests failed. *)
Inductive pollResult :=
| Fetched (health : Health) (metricsBody : list Metric) (incidentsBody : list Incident)
    (sla : Sla)
| Failed.

(** The state after one [fetchData] call has run its [try], [catch] and
    [finally]. *)
Definition fetchData (r : pollResult) (st : state) : state :=
  match r with
  | Fetched health metricsBody incidentsBody sla =>
      {| healthData := Some health; metrics := metricsBody; incidents := incidentsBody;
         slaData := Some sla; loading := false; error := None |}
  | Failed =>
      {| healthData := healthData st; metrics := metrics st; incidents := incidents st;
         slaData := slaData st; loading := false;
         error := Some "Failed to fetch data from backend" |}
  end.

(** The state after the polls of a session, in the order in which they
    complete. *)
Definition poll (results : list pollResult) (st : state) : state :=
  foldl (fun st r => fetchData r st) st results.

(** What [App] returns: the loading screen, the error screen, or the
    dashboard with the props of its four components. *)
Inductive screen :=
| LoadingScreen
| ErrorScreen (message : string)
| DashboardScreen (health : option Health) (metricsProp : list Metric)
    (incidentsProp : list Incident) (sla : option Sla).

(** The two early returns and the main return of [App]. *)
Definition render (st : state) : screen :=
  if loading st then LoadingScreen
  else
    match error st with
    | Some message => ErrorScreen message
    | None => DashboardScreen (healthData st) (metrics st) (incidents st) (slaData st)
    end.

(** X12: the loading screen is shown only until the first poll completes. After
    that the screen depends on the last completed poll alone: the dashboard
    with the four bodies of that poll, all from the same poll, when it
    succeeded; the error screen when it failed, even though the bodies of
    the last successful poll are still held in the state, which a failed
    poll leaves untouched. *)
Theorem last_poll_decides_screen (results : list pollResult) (r : pollResult) :
  render (poll [] initial) = LoadingScreen /\
  render (poll (results ++ [r])%list initial) =
    match r with
    | Fetched health metricsBody incidentsBody sla =>
        DashboardScreen (Some health) metricsBody incidentsBody (Some sla)
    | Failed => ErrorScreen "Failed to fetch data from backend"
    end /\
  (let before := poll results initial in
   let after := poll (results ++ [Failed])%list initial in
   healthData after = healthData before /\ metrics after = metrics before /\
   incidents after = incidents before /\ slaData after = slaData before).
Proof.
  unfold poll. repeat split.
  - rewrite foldl_app. simpl. destruct r; reflexivity.
  - rewrite foldl_app. reflexivity.
  - rewrite foldl_app. reflexivity.
  - rewrite foldl_app. reflexivity.
  - rewrite foldl_app. reflexivity.
Qed.

End Shell.

End App.
